(** * Sales dashboards: filter engine, KPI aggregator, regression page, export

    Shallow embedding of the analytic core of the three Streamlit pages
    [toy.py], [transportation.py] and [predict.py], and the properties the
    specification states about them.

    Conventions of the embedding.
    - A DataFrame of the sales file is the list of its rows, in frame order;
      a row is a record with one typed field per column the pages read.  A
      column is reached by a constant label through its field and by a
      variable label through [getitem], which raises KeyError.
    - The float64 columns (SALES, PRICEEACH) hold currency amounts; a cell is
      carried as an exact count of hundredths.  Values computed from them
      (sums, quotients) are exact rationals or one of the IEEE specials inf,
      -inf, nan: the binary rounding error of float64 is not part of the
      model, signed zeros are not distinguished.
    - Code that can raise returns a [result]; a page script is a [run], the
      list of what it renders together with how it ended.  The widgets read
      the state of the user interface, given as a record.
    - scikit-learn is a parameter of the regression page.  The translation
      function [_] of [toy.py] is the identity (no catalogue is shipped). *)

From Stdlib Require Import ZArith QArith Qabs String Ascii List Lia.
From stdpp Require Import base decidable option list sets gmap strings pretty sorting.

Local Open Scope string_scope.
Local Open Scope Z_scope.

(* set_solver clears hypotheses it has already used up. *)
Local Set Warnings "-clear-no-such-hyp".

(* ===================================================================== *)
(** ** Python and numpy scalars *)
(* ===================================================================== *)

Module Py.

(** Exceptions the modelled code can raise. *)
Inductive exn :=
| ZeroDivisionError
| KeyError (key : string)
| IndexError
| EmptyDataError
| ParserError.

Inductive result (A : Type) :=
| Ok (a : A)
| Raise (e : exn).
Arguments Ok {A} a.
Arguments Raise {A} e.

Global Instance result_ret : MRet result := λ A a, Ok a.
Global Instance result_bind : MBind result := λ A B k m,
  match m with
  | Ok a => k a
  | Raise e => Raise e
  end.

(** A binary64 value: finite (exact) or an IEEE special. *)
Inductive float64 :=
| Fin (q : Q)
| PosInf
| NegInf
| NaN.

Definition Qis_zero (q : Q) : bool := Qnum q =? 0.
Definition Qis_neg (q : Q) : bool := Qnum q <? 0.

Definition fneg (x : float64) : float64 :=
  match x with
  | Fin q => Fin (- q)
  | PosInf => NegInf
  | NegInf => PosInf
  | NaN => NaN
  end.

Definition fadd (x y : float64) : float64 :=
  match x, y with
  | NaN, _ | _, NaN => NaN
  | Fin a, Fin b => Fin (a + b)
  | PosInf, NegInf | NegInf, PosInf => NaN
  | PosInf, _ | _, PosInf => PosInf
  | NegInf, _ | _, NegInf => NegInf
  end.

Definition fsub (x y : float64) : float64 := fadd x (fneg y).

(** Sign of an infinity scaled by a finite factor; zero times infinity is
    nan. *)
Definition scale_inf (pos : bool) (q : Q) : float64 :=
  if Qis_zero q then NaN
  else if xorb pos (Qis_neg q) then PosInf else NegInf.

Definition fmul (x y : float64) : float64 :=
  match x, y with
  | NaN, _ | _, NaN => NaN
  | Fin a, Fin b => Fin (a * b)
  | Fin a, PosInf | PosInf, Fin a => scale_inf true a
  | Fin a, NegInf | NegInf, Fin a => scale_inf false a
  | PosInf, PosInf | NegInf, NegInf => PosInf
  | PosInf, NegInf | NegInf, PosInf => NegInf
  end.

(** IEEE division, as numpy performs it on scalars: a zero divisor gives
    nan for 0/0 and a signed infinity otherwise (with a RuntimeWarning,
    which is not an exception). *)
Definition fdiv (x y : float64) : float64 :=
  match x, y with
  | NaN, _ | _, NaN => NaN
  | Fin a, Fin b =>
      if Qis_zero b then
        if Qis_zero a then NaN
        else if Qis_neg a then NegInf else PosInf
      else Fin (a / b)
  | Fin _, (PosInf | NegInf) => Fin 0
  | (PosInf | NegInf), (PosInf | NegInf) => NaN
  | PosInf, Fin b => if Qis_neg b then NegInf else PosInf
  | NegInf, Fin b => if Qis_neg b then PosInf else NegInf
  end.

(** A Python number as the pages meet it: a built-in [int], a built-in
    [float], or a numpy float64 scalar (what a pandas reduction returns). *)
Inductive scalar :=
| PyInt (z : Z)
| PyFloat (x : float64)
| NpFloat (x : float64).

Definition to_float (s : scalar) : float64 :=
  match s with
  | PyInt z => Fin (inject_Z z)
  | PyFloat x | NpFloat x => x
  end.

Definition is_np (s : scalar) : bool :=
  match s with NpFloat _ => true | _ => false end.

Definition is_zero (s : scalar) : bool :=
  match s with
  | PyInt z => z =? 0
  | PyFloat (Fin q) | NpFloat (Fin q) => Qis_zero q
  | _ => false
  end.

(** [a - b] and [a * b]: an operation with a numpy operand is numpy's and
    returns a numpy scalar; [int] with [int] stays [int]. *)
Definition sub (a b : scalar) : scalar :=
  match a, b with
  | PyInt x, PyInt y => PyInt (x - y)
  | _, _ =>
      if is_np a || is_np b then NpFloat (fsub (to_float a) (to_float b))
      else PyFloat (fsub (to_float a) (to_float b))
  end.

Definition mul (a b : scalar) : scalar :=
  match a, b with
  | PyInt x, PyInt y => PyInt (x * y)
  | _, _ =>
      if is_np a || is_np b then NpFloat (fmul (to_float a) (to_float b))
      else PyFloat (fmul (to_float a) (to_float b))
  end.

(** [a / b]: true division.  With a numpy operand the division is IEEE and
    never raises; between built-in numbers a zero divisor raises
    ZeroDivisionError. *)
Definition truediv (a b : scalar) : result scalar :=
  if is_np a || is_np b then Ok (NpFloat (fdiv (to_float a) (to_float b)))
  else if is_zero b then Raise ZeroDivisionError
  else Ok (PyFloat (fdiv (to_float a) (to_float b))).

(** *** Format specification [.Nf] *)

(** Nearest integer to [n/d], ties to the even neighbour. *)
Definition round_half_even (n : Z) (d : positive) : Z :=
  let q := n / Z.pos d in
  let r := n mod Z.pos d in
  match 2 * r ?= Z.pos d with
  | Lt => q
  | Gt => q + 1
  | Eq => if Z.even q then q else q + 1
  end.

Fixpoint zeros (n : nat) : string :=
  match n with
  | O => ""
  | S n' => String "0" (zeros n')
  end.

(** Decimal digits of [n], left-padded with zeros to width [w]. *)
Definition zfill (w : nat) (n : Z) : string :=
  let s := pretty n in
  zeros (w - String.length s) ++ s.

(** The count of [10^-p] units shown for [q]. *)
Definition shown_units (p : nat) (q : Q) : Z :=
  round_half_even (Qnum q * 10 ^ Z.of_nat p) (Qden q).

(** The numeral of [units] times [10^-p]: sign, integer part, and [p]
    decimals after a point when [p] is positive. *)
Definition decimal_text (p : nat) (neg : bool) (units : Z) : string :=
  let a := Z.abs units in
  let scale := 10 ^ Z.of_nat p in
  (if neg then "-" else "")
  ++ pretty (a / scale)
  ++ match p with
     | O => ""
     | _ => "." ++ zfill p (a mod scale)
     end.

Definition fixed (p : nat) (q : Q) : string :=
  decimal_text p (Qis_neg q) (shown_units p q).

(** [format(x, ".pf")] for a float. *)
Definition format_f (p : nat) (x : float64) : string :=
  match x with
  | Fin q => fixed p q
  | PosInf => "inf"
  | NegInf => "-inf"
  | NaN => "nan"
  end.

Definition format_scalar (p : nat) (s : scalar) : string :=
  format_f p (to_float s).

(** [format(x, ",.pf")]: the same with a comma between groups of three
    digits of the integer part. *)
Fixpoint group3 (digits : list ascii) : list ascii :=
  match digits with
  | a :: b :: c :: (_ :: _) as rest => a :: b :: c :: "," %char :: group3 rest
  | _ => digits
  end.

Definition with_commas (s : string) : string :=
  string_of_list_ascii (rev (group3 (rev (list_ascii_of_string s)))).

Definition fixed_commas (p : nat) (q : Q) : string :=
  let a := Z.abs (shown_units p q) in
  let scale := 10 ^ Z.of_nat p in
  (if Qis_neg q then "-" else "")
  ++ with_commas (pretty (a / scale))
  ++ match p with
     | O => ""
     | _ => "." ++ zfill p (a mod scale)
     end.

Definition format_f_commas (p : nat) (x : float64) : string :=
  match x with
  | Fin q => fixed_commas p q
  | PosInf => "inf"
  | NegInf => "-inf"
  | NaN => "nan"
  end.

(** [int(x)]: truncation toward zero of a finite float. *)
Definition int_of_Q (q : Q) : Z := Z.quot (Qnum q) (Z.pos (Qden q)).

(** A value handed to a widget: a str or an int. *)
Inductive pyobj :=
| PStr (s : string)
| PInt (n : Z).

(** Truth value of a list: non-empty. *)
Definition truthy {A} (l : list A) : bool :=
  match l with [] => false | _ => true end.

End Py.

Import Py.

(* ===================================================================== *)
(** ** The pandas operations the pages call *)
(* ===================================================================== *)

Module Pandas.

(** A calendar date, what [pd.to_datetime] makes of an ORDERDATE cell. *)
Record Timestamp := mkTimestamp { year : Z; month : Z; day : Z }.

Definition Timestamp_leb (a b : Timestamp) : bool :=
  (year a <? year b)
  || ((year a =? year b)
      && ((month a <? month b)
          || ((month a =? month b) && (day a <=? day b)))).

(** A cell of a column, by dtype: int64, float64 (in hundredths), object
    holding a str, datetime64. *)
Inductive cell :=
| VInt (z : Z)
| VFloat (hundredths : Z)
| VStr (s : string)
| VDate (t : Timestamp).

Record SalesRecord := mkRow {
  ORDERNUMBER : Z;
  QUANTITYORDERED : Z;
  PRICEEACH : Z;
  SALES : Z;
  ORDERDATE : Timestamp;
  PRODUCTLINE : string;
  COUNTRY : string;
  STATUS : string;
  CUSTOMERNAME : string;
  PRODUCTCODE : string;
  QTR_ID : Z;
  ORDERLINENUMBER : Z
}.

Definition DataFrame := list SalesRecord.

(** Modelled from the spec: the header of the sales file, which is not part
    of the sources; the columns are the ones the interface section lists, in
    its order, each with the dtype [read_csv] infers for it. *)
Definition schema : list (string * (SalesRecord → cell)) :=
  [ ("ORDERNUMBER", λ r, VInt (ORDERNUMBER r));
    ("QUANTITYORDERED", λ r, VInt (QUANTITYORDERED r));
    ("PRICEEACH", λ r, VFloat (PRICEEACH r));
    ("SALES", λ r, VFloat (SALES r));
    ("ORDERDATE", λ r, VDate (ORDERDATE r));
    ("PRODUCTLINE", λ r, VStr (PRODUCTLINE r));
    ("COUNTRY", λ r, VStr (COUNTRY r));
    ("STATUS", λ r, VStr (STATUS r));
    ("CUSTOMERNAME", λ r, VStr (CUSTOMERNAME r));
    ("PRODUCTCODE", λ r, VStr (PRODUCTCODE r));
    ("QTR_ID", λ r, VInt (QTR_ID r));
    ("ORDERLINENUMBER", λ r, VInt (ORDERLINENUMBER r)) ].

Definition columns : list string := fst <$> schema.

(** The cells of a row, in column order. *)
Definition cells (r : SalesRecord) : list cell := (λ c, c.2 r) <$> schema.

Fixpoint assoc {A} (k : string) (l : list (string * A)) : option A :=
  match l with
  | [] => None
  | (k', a) :: l' => if String.eqb k k' then Some a else assoc k l'
  end.

(** [data[column]]: the Series under that label, KeyError without it. *)
Definition getitem (data : DataFrame) (column : string) : result (list cell) :=
  match assoc column schema with
  | Some f => Ok (f <$> data)
  | None => Raise (KeyError column)
  end.

(** [s.isin(values)] for a list of str: the boolean mask of the cells that
    are one of the values.  A cell that is not a str equals no str (for a
    datetime64 column this is pandas 3; earlier releases first try to read
    the strs as dates.  The pages filter str columns only). *)
Definition isin (s : list cell) (values : list string) : list bool :=
  (λ c, match c with
        | VStr x => bool_decide (x ∈ values)
        | _ => false
        end) <$> s.

(** [s == v]: the element-wise comparison with one value. *)
Definition eq_mask `{EqDecision A} (s : list A) (v : option A) : list bool :=
  (λ x, bool_decide (Some x = v)) <$> s.

(** [m1 & m2] *)
Definition and_mask (m1 m2 : list bool) : list bool :=
  zip_with andb m1 m2.

(** [data[mask]]: the rows whose mask entry is True, in frame order. *)
Fixpoint getitem_mask {A} (data : list A) (mask : list bool) : list A :=
  match data, mask with
  | r :: data', b :: mask' =>
      if b then r :: getitem_mask data' mask' else getitem_mask data' mask'
  | _, _ => []
  end.

(** [s.sum()] of a float64 column: a numpy float64 scalar, 0.0 for no
    rows. *)
Definition sum_hundredths (s : list Z) : Z := fold_left Z.add s 0.

Definition Series_sum (s : list Z) : scalar :=
  NpFloat (Fin (sum_hundredths s # 100)).

(** [s.unique()]: the values in order of first appearance, found with a
    hash table of the values seen. *)
Fixpoint unique_from `{Countable A} (seen : gset A) (s : list A) : list A :=
  match s with
  | [] => []
  | x :: s' =>
      if decide (x ∈ seen) then unique_from seen s'
      else x :: unique_from ({[x]} ∪ seen) s'
  end.

Definition unique `{Countable A} (s : list A) : list A := unique_from ∅ s.

(** [s.nunique()]: the number of distinct values (the columns of the sales
    file the pages count have no missing cell). *)
Definition nunique `{Countable A} (s : list A) : Z :=
  Z.of_nat (length (unique s)).

(** [s.min()] and [s.max()] of a datetime64 column; [None] stands for NaT,
    the answer for no rows. *)
Definition Series_min (s : list Timestamp) : option Timestamp :=
  match s with
  | [] => None
  | t :: s' => Some (fold_left (λ m x, if Timestamp_leb m x then m else x) s' t)
  end.

Definition Series_max (s : list Timestamp) : option Timestamp :=
  match s with
  | [] => None
  | t :: s' => Some (fold_left (λ m x, if Timestamp_leb m x then x else m) s' t)
  end.

(** [len(data)] *)
Definition len {A} (data : list A) : Z := Z.of_nat (length data).

(** *** CSV text *)

Definition dquote : ascii := ascii_of_nat 34.
Definition comma : ascii := ascii_of_nat 44.
Definition LF : ascii := ascii_of_nat 10.
Definition CR : ascii := ascii_of_nat 13.

(** How [to_csv] writes a cell (its defaults: [repr] of a float, the date
    alone for a column of midnights).  The float rendering is the one of
    amounts of at most fifteen significant digits, which [repr] writes out
    digit for digit and without an exponent. *)
Definition float_text (h : Z) : string :=
  let a := Z.abs h in
  let frac := a mod 100 in
  (if h <? 0 then "-" else "")
  ++ pretty (a / 100) ++ "."
  ++ (if frac mod 10 =? 0 then pretty (frac / 10) else zfill 2 frac).

Definition date_text (t : Timestamp) : string :=
  zfill 4 (year t) ++ "-" ++ zfill 2 (month t) ++ "-" ++ zfill 2 (day t).

Definition cell_text (c : cell) : string :=
  match c with
  | VInt z => pretty z
  | VFloat h => float_text h
  | VStr s => s
  | VDate t => date_text t
  end.

(** The writer's dialect (csv.writer with QUOTE_MINIMAL and doublequote,
    the line terminator being LF, as up to Python 3.12): a field is quoted
    when it holds the delimiter, the quote character or the line
    terminator, and a quote inside it is written twice.  A carriage return
    alone does not make a field quoted (from Python 3.13 on it does). *)
Definition special (c : ascii) : bool :=
  Ascii.eqb c comma || Ascii.eqb c dquote || Ascii.eqb c LF.

Fixpoint needs_quoting (s : list ascii) : bool :=
  match s with
  | [] => false
  | c :: s' => special c || needs_quoting s'
  end.

Fixpoint double_quotes (s : list ascii) : list ascii :=
  match s with
  | [] => []
  | c :: s' =>
      if Ascii.eqb c dquote then dquote :: dquote :: double_quotes s'
      else c :: double_quotes s'
  end.

Definition csv_field (s : list ascii) : list ascii :=
  if needs_quoting s then dquote :: double_quotes s ++ [dquote] else s.

Fixpoint csv_join (fields : list (list ascii)) : list ascii :=
  match fields with
  | [] => []
  | [f] => f
  | f :: fs => f ++ comma :: csv_join fs
  end.

(** One record: the fields joined by commas, then the line terminator. *)
Definition csv_row (fields : list string) : list ascii :=
  csv_join ((λ f, csv_field (list_ascii_of_string f)) <$> fields) ++ [LF].

Definition text_of (r : SalesRecord) : list string := cell_text <$> cells r.

(** [data.to_csv(buf, index=False)] followed by [buf.getvalue()]: the
    header, then one record per row; no column of row labels. *)
Definition to_csv (data : DataFrame) : string :=
  string_of_list_ascii
    (csv_row columns ++ concat ((λ r, csv_row (text_of r)) <$> data)).

(** The tokenizer of [read_csv] for the same dialect.  States: start of a
    record, start of a field, inside an unquoted field, inside a quoted
    field, just after a quote inside a quoted field, just after a carriage
    return that ended a record.  A line break ends a record (LF, CR or CR
    LF), except inside quotes; an empty line is skipped. *)
Inductive pstate :=
| StartRecord
| StartField
| InField
| InQuoted
| QuoteInQuoted
| AfterCR.

(** [field] and [record] are the characters and fields read so far, most
    recent first. *)
Definition end_field (field : list ascii) (record : list string) : list string :=
  string_of_list_ascii (rev field) :: record.

Fixpoint tokenize (st : pstate) (field : list ascii) (record : list string)
    (input : list ascii) : list (list string) :=
  match input with
  | [] =>
      match st with
      | StartRecord | AfterCR => []
      | _ => [rev (end_field field record)]
      end
  | c :: rest =>
      match st with
      | StartRecord | AfterCR =>
          if Ascii.eqb c LF then tokenize StartRecord [] [] rest
          else if Ascii.eqb c CR then tokenize AfterCR [] [] rest
          else if Ascii.eqb c dquote then tokenize InQuoted [] [] rest
          else if Ascii.eqb c comma then
            tokenize StartField [] (end_field [] []) rest
          else tokenize InField [c] [] rest
      | StartField =>
          if Ascii.eqb c LF then
            rev (end_field field record) :: tokenize StartRecord [] [] rest
          else if Ascii.eqb c CR then
            rev (end_field field record) :: tokenize AfterCR [] [] rest
          else if Ascii.eqb c dquote then tokenize InQuoted [] record rest
          else if Ascii.eqb c comma then
            tokenize StartField [] (end_field field record) rest
          else tokenize InField [c] record rest
      | InField =>
          if Ascii.eqb c LF then
            rev (end_field field record) :: tokenize StartRecord [] [] rest
          else if Ascii.eqb c CR then
            rev (end_field field record) :: tokenize AfterCR [] [] rest
          else if Ascii.eqb c comma then
            tokenize StartField [] (end_field field record) rest
          else tokenize InField (c :: field) record rest
      | InQuoted =>
          if Ascii.eqb c dquote then tokenize QuoteInQuoted field record rest
          else tokenize InQuoted (c :: field) record rest
      | QuoteInQuoted =>
          if Ascii.eqb c dquote then tokenize InQuoted (c :: field) record rest
          else if Ascii.eqb c LF then
            rev (end_field field record) :: tokenize StartRecord [] [] rest
          else if Ascii.eqb c CR then
            rev (end_field field record) :: tokenize AfterCR [] [] rest
          else if Ascii.eqb c comma then
            tokenize StartField [] (end_field field record) rest
          else tokenize InField (c :: field) record rest
      end
  end.

(** [pd.read_csv(text)] up to the types of the cells: the first record is
    the header, the others are the rows, each cell as its text.  No record
    at all is an EmptyDataError.  When the first row is longer than the
    header its leading fields are row labels, for every row, and are not
    part of the columns returned; a row shorter than the rest is filled up
    with missing values, which are also what an empty field stands for; a
    row longer than the rest is a ParserError. *)
Definition pad (width : nat) (record : list string) : list string :=
  record ++ replicate (width - length record) EmptyString.

Definition read_csv (text : string) : result (list string * list (list string)) :=
  match tokenize StartRecord [] [] (list_ascii_of_string text) with
  | [] => Raise EmptyDataError
  | header :: records =>
      let leading :=
        match records with
        | first :: _ => (length first - length header)%nat
        | [] => 0%nat
        end in
      let width := (length header + leading)%nat in
      if forallb (λ r, Nat.leb (length r) width) records
      then Ok (header, (λ r, drop leading (pad width r)) <$> records)
      else Raise ParserError
  end.

End Pandas.

Import Pandas.

(* ===================================================================== *)
(** ** The page a run renders *)
(* ===================================================================== *)

Module Streamlit.

(** What a run of a page script leaves behind, in order: the elements it
    renders and the model it fits.  Page chrome (page config, the upload
    widget, the footer style) is left out. *)
Inductive event :=
| Title (s : string)
| Header (s : string)
| Subheader (s : string)
| Metric (label : string) (value : pyobj)
| Charts (data : DataFrame) (combine : bool)
| DownloadButton (data : string)
| Write (s : string)
| Markdown (s : string)
| Warning (s : string)
| Info (s : string)
| Success (s : string)
| Pyplot
| ModelFit (X : list (Z * Z)) (y : list Z).

(** A script run: the events so far and how the run went on. *)
Record run (A : Type) := Run { events : list event; outcome : result A }.
Arguments Run {A} events outcome.
Arguments events {A} r.
Arguments outcome {A} r.

Global Instance run_ret : MRet run := λ A a, Run [] (Ok a).
Global Instance run_bind : MBind run := λ A B k m,
  match outcome m with
  | Ok a => Run (events m ++ events (k a)) (outcome (k a))
  | Raise e => Run (events m) (Raise e)
  end.

Definition emit (e : event) : run () := Run [e] (Ok ()).
Definition lift {A} (r : result A) : run A := Run [] r.

(** The widgets: each returns what the user has entered, or its default
    when the user has not touched it ([None]). *)
Definition date_input (default : option Timestamp) (entered : option Timestamp)
    : option Timestamp :=
  match entered with
  | Some d => Some d
  | None => default
  end.

(** Only options can be selected. *)
Definition multiselect (options default : list string)
    (entered : option (list string)) : list string :=
  match entered with
  | Some picked => filter (λ x, x ∈ options) picked
  | None => default
  end.

(** The first option stands selected until another one is picked; no
    option, no selection. *)
Definition selectbox {A} `{EqDecision A} (options : list A) (entered : option A)
    : option A :=
  match entered with
  | Some x => if decide (x ∈ options) then Some x else head options
  | None => head options
  end.

Definition number_input (default : Z) (entered : option Z) : Z :=
  match entered with Some v => v | None => default end.

End Streamlit.

Import Streamlit.

(* ===================================================================== *)
(** ** toy.py *)
(* ===================================================================== *)

Module Toy.

(** The state of the page's widgets at a run. *)
Record widgets := {
  start_date_entered : option Timestamp;
  end_date_entered : option Timestamp;
  product_lines_entered : option (list string);
  countries_entered : option (list string);
  statuses_entered : option (list string);
  search_clicked : bool;
  combine_entered : option bool;
  feedback_entered : string;
  submit_clicked : bool
}.

Definition filter_data (data : DataFrame) (column : string)
    (values : list string) : result DataFrame :=
  if truthy values then
    s ← getitem data column;
    mret (getitem_mask data (isin s values))
  else mret data.

Definition calculate_kpis (data : DataFrame) : result (list pyobj) :=
  let total_sales := Series_sum (SALES <$> data) in
  m ← truediv total_sales (PyInt 1000000);
  let sales_in_m := format_scalar 2 m ++ "M" in
  let total_orders := nunique (ORDERNUMBER <$> data) in
  per_order ← truediv total_sales (PyInt total_orders);
  k ← truediv per_order (PyInt 1000);
  let average_sales_per_order := format_scalar 2 k ++ "K" in
  let unique_customers := nunique (CUSTOMERNAME <$> data) in
  mret [PStr sales_in_m; PInt total_orders;
        PStr average_sales_per_order; PInt unique_customers].

(** One tile per column of [st.columns(4)], as far as names and values
    go. *)
Definition display_kpi_metrics (kpis : list pyobj) (kpi_names : list string)
    : run () :=
  emit (Header "KPI Metrics");;
  foldr (λ '(kpi_name, kpi_value) rest,
           emit (Metric kpi_name kpi_value);; rest)
        (mret ()) (take 4 (zip kpi_names kpis)).

(** [sorted(l)] of a list of str. *)
Definition sorted (l : list string) : list string := merge_sort String.le l.

(** The two dates are read from their widgets and not returned. *)
Definition display_sidebar (ui : widgets) (data : DataFrame)
    : run (list string * list string * list string * bool) :=
  emit (Header "Filters");;
  let start_date :=
    date_input (Series_min (ORDERDATE <$> data)) (start_date_entered ui) in
  let end_date :=
    date_input (Series_max (ORDERDATE <$> data)) (end_date_entered ui) in
  let product_lines := sorted (unique (PRODUCTLINE <$> data)) in
  let selected_product_lines :=
    multiselect product_lines product_lines (product_lines_entered ui) in
  let selected_countries :=
    multiselect (unique (COUNTRY <$> data)) [] (countries_entered ui) in
  let selected_statuses :=
    multiselect (unique (STATUS <$> data)) [] (statuses_entered ui) in
  emit (Info "Jerald Ting Dashboard Studio");;
  let search_button := search_clicked ui in
  mret (selected_product_lines, selected_countries, selected_statuses, search_button).

(** The area chart and the three ranked tables, all drawn from [data]. *)
Definition display_charts (ui : widgets) (data : DataFrame) : run () :=
  let combine_product_lines :=
    match combine_entered ui with Some b => b | None => true end in
  emit (Charts data combine_product_lines).

Definition add_download_button (filtered_data : DataFrame) : run () :=
  let csv_data := to_csv filtered_data in
  emit (DownloadButton csv_data);;
  emit (Write "You can download the filtered data above in CSV format for further analysis.").

Definition user_feedback (ui : widgets) : run () :=
  emit (Header "Your Feedback");;
  if submit_clicked ui then
    if negb (String.eqb (feedback_entered ui) "") then
      emit (Success "Thank you for your feedback!")
    else emit (Warning "Please write some feedback before submitting.")
  else mret ().

Definition kpi_names : list string :=
  ["Total Sales"; "Total Orders"; "Average Sales per Order"; "Unique Customers"].

(** [data] is what [load_data()] returned. *)
Definition main (ui : widgets) (data : DataFrame) : run () :=
  emit (Title "📊 Toy Store Sales Dashboard");;
  '(selected_product_lines, selected_countries, selected_statuses, search_button) ←
    display_sidebar ui data;
  (if (search_button : bool) then
     let filtered_data := data in
     filtered_data ← lift (filter_data filtered_data "PRODUCTLINE" selected_product_lines);
     filtered_data ← lift (filter_data filtered_data "COUNTRY" selected_countries);
     filtered_data ← lift (filter_data filtered_data "STATUS" selected_statuses);
     kpis ← lift (calculate_kpis filtered_data);
     display_kpi_metrics kpis kpi_names;;
     display_charts ui filtered_data;;
     emit (Header "Export Data");;
     add_download_button filtered_data
   else mret ());;
  user_feedback ui.

End Toy.

(* ===================================================================== *)
(** ** transportation.py *)
(* ===================================================================== *)

Module Transportation.

Record widgets := {
  start_date_entered : option Timestamp;
  end_date_entered : option Timestamp;
  product_lines_entered : option (list string);
  countries_entered : option (list string);
  statuses_entered : option (list string);
  combine_entered : option bool
}.

Definition filter_data (data : DataFrame) (column : string)
    (values : list string) : result DataFrame :=
  if truthy values then
    s ← getitem data column;
    mret (getitem_mask data (isin s values))
  else mret data.

Definition calculate_kpis (data : DataFrame) : result (list pyobj) :=
  let total_sales := Series_sum (SALES <$> data) in
  m ← truediv total_sales (PyInt 1000000);
  let sales_in_m := format_scalar 2 m ++ "M" in
  let total_orders := nunique (ORDERNUMBER <$> data) in
  per_order ← truediv total_sales (PyInt total_orders);
  k ← truediv per_order (PyInt 1000);
  let average_sales_per_order := format_scalar 2 k ++ "K" in
  let unique_customers := nunique (CUSTOMERNAME <$> data) in
  mret [PStr sales_in_m; PInt total_orders;
        PStr average_sales_per_order; PInt unique_customers].

Definition display_sidebar (ui : widgets) (data : DataFrame)
    : run (list string * list string * list string) :=
  emit (Header "Filters");;
  let start_date :=
    date_input (Series_min (ORDERDATE <$> data)) (start_date_entered ui) in
  let end_date :=
    date_input (Series_max (ORDERDATE <$> data)) (end_date_entered ui) in
  let product_lines := Toy.sorted (unique (PRODUCTLINE <$> data)) in
  let selected_product_lines :=
    multiselect product_lines product_lines (product_lines_entered ui) in
  let selected_countries :=
    multiselect (unique (COUNTRY <$> data)) [] (countries_entered ui) in
  let selected_statuses :=
    multiselect (unique (STATUS <$> data)) [] (statuses_entered ui) in
  emit (Info "Jerald Ting Dashboard Studio");;
  mret (selected_product_lines, selected_countries, selected_statuses).

Definition display_charts (ui : widgets) (data : DataFrame) : run () :=
  let combine_product_lines :=
    match combine_entered ui with Some b => b | None => true end in
  emit (Charts data combine_product_lines).

Definition add_download_button (filtered_data : DataFrame) : run () :=
  let csv_data := to_csv filtered_data in
  emit (DownloadButton csv_data);;
  emit (Write "You can download the filtered data above in CSV format for further analysis.").

Definition main (ui : widgets) (data : DataFrame) : run () :=
  emit (Title "📊 Transportation Sales Dashboard");;
  '(selected_product_lines, selected_countries, selected_statuses) ←
    display_sidebar ui data;
  let filtered_data := data in
  filtered_data ← lift (filter_data filtered_data "PRODUCTLINE" selected_product_lines);
  filtered_data ← lift (filter_data filtered_data "COUNTRY" selected_countries);
  filtered_data ← lift (filter_data filtered_data "STATUS" selected_statuses);
  kpis ← lift (calculate_kpis filtered_data);
  Toy.display_kpi_metrics kpis Toy.kpi_names;;
  display_charts ui filtered_data;;
  emit (Header "Export Data");;
  add_download_button filtered_data.

End Transportation.

(* ===================================================================== *)
(** ** predict.py *)
(* ===================================================================== *)

Module Predict.

(** scikit-learn's side of the page: the forest fitted on the feature rows
    (ordered quantity, unit price) and the targets, its predictions, its two
    feature importances, and [r2_score], whose result is a numpy scalar or a
    built-in float depending on the release. *)
Class Sklearn := {
  forest : Type;
  fit : list (Z * Z) → list Z → forest;
  predict : forest → list (Z * Z) → list float64;
  feature_importances_ : forest → float64 * float64;
  r2_score : list Z → list float64 → scalar
}.

Record widgets := {
  product_entered : option string;
  country_entered : option string;
  quarter_entered : option Z;
  quantity_entered : option Z;
  price_entered : option Z;
  predict_clicked : bool
}.

(** [1 - (1 - r2) * (n - 1) / (n - k - 1)] for [n] samples and [k]
    features. *)
Definition adjusted_r2 (r2 : scalar) (n k : Z) : result scalar :=
  let num := mul (sub (PyInt 1) r2) (sub (PyInt n) (PyInt 1)) in
  let den := sub (sub (PyInt n) (PyInt k)) (PyInt 1) in
  ratio ← truediv num den;
  mret (sub (PyInt 1) ratio).

(** [np.sum((y - y_pred) ** 2)] *)
Definition sse (y : list Z) (y_pred : list float64) : scalar :=
  NpFloat
    (fold_left fadd
       (zip_with (λ t p, let d := fsub (Fin (t # 100)) p in fmul d d) y y_pred)
       (Fin 0)).

(** [int(s.mean())] of a column with at least one row, given the sum of the
    column as a rational. *)
Definition int_mean (total : Q) (n : Z) : Z := int_of_Q (total / inject_Z n).

Definition features : list string := ["Ordered Quantity"; "Price for Each"].

(** The three selections and the rows that match all of them. *)
Definition selected_product (ui : widgets) (df : DataFrame) : option string :=
  selectbox (unique (PRODUCTLINE <$> df)) (product_entered ui).
Definition selected_country (ui : widgets) (df : DataFrame) : option string :=
  selectbox (unique (COUNTRY <$> df)) (country_entered ui).
Definition selected_quarter (ui : widgets) (df : DataFrame) : option Z :=
  selectbox (unique (QTR_ID <$> df)) (quarter_entered ui).

Definition filtered_df (ui : widgets) (df : DataFrame) : DataFrame :=
  getitem_mask df
    (and_mask
       (and_mask (eq_mask (PRODUCTLINE <$> df) (selected_product ui df))
                 (eq_mask (COUNTRY <$> df) (selected_country ui df)))
       (eq_mask (QTR_ID <$> df) (selected_quarter ui df))).

Section page.
Context `{Sklearn}.

(** [df] is what [load_data()] returned, its columns renamed. *)
Definition page (ui : widgets) (df : DataFrame) : run () :=
  emit (Header "Filter Data");;
  let filtered_df := filtered_df ui df in
  let X := (λ r, (QUANTITYORDERED r, PRICEEACH r)) <$> filtered_df in
  let y := SALES <$> filtered_df in
  if 1 <? len filtered_df then
    emit (ModelFit X y);;
    let model := fit X y in
    let y_pred := predict model X in
    let r2 := r2_score y y_pred in
    adjusted ← lift (adjusted_r2 r2 (len y) (len features));
    let sse := sse y y_pred in
    emit (Subheader "Random Forest Model Metrics and Feature Importance");;
    emit (Metric "R-squared" (PStr (format_scalar 4 r2)));;
    emit (Metric "Adjusted R-squared" (PStr (format_scalar 4 adjusted)));;
    emit (Metric "SSE" (PStr (format_scalar 2 sse)));;
    emit (Metric "Ordered Quantity Feature Importance"
            (PStr (format_f 4 (feature_importances_ model).1)));;
    emit (Metric "Price for Each Feature Importance"
            (PStr (format_f 4 (feature_importances_ model).2)));;
    emit (Subheader "Model Visualizations");;
    emit Pyplot;;
    emit (Header "Make a Prediction");;
    let quantity :=
      number_input
        (int_mean (inject_Z (fold_left Z.add (QUANTITYORDERED <$> filtered_df) 0))
                  (len filtered_df))
        (quantity_entered ui) in
    let price :=
      number_input
        (int_mean (fold_left Z.add (PRICEEACH <$> filtered_df) 0 # 100)
                  (len filtered_df))
        (price_entered ui) in
    (if predict_clicked ui then
       match predict model [(quantity, price * 100)] with
       | predicted_sales :: _ =>
           emit (Markdown ("### Predicted Sales: $" ++ format_f_commas 2 predicted_sales));;
           emit (Success ("Predicted Sales: $" ++ format_f_commas 2 predicted_sales))
       | [] => lift (Raise IndexError)
       end
     else mret ());;
    emit (Write "Adjust the inputs above and click 'Predict Sales' to get an estimated sales value.");;
    emit (Write "This model uses Random Forest Regressor to predict sales based on order details.")
  else
    emit (Warning "Not enough data for selected filters. Please adjust the filter options.").
End page.

End Predict.

(* ===================================================================== *)
(** ** The specification's contracts, in its own words *)
(* ===================================================================== *)

Module Spec.

(** The value of a row in a column, if the dataset has that column. *)
Definition value_in (column : string) (r : SalesRecord) : option cell :=
  (λ f, f r) <$> assoc column schema.

(** The row's value in [column] is a member of [allowedValues]. *)
Definition allowed (column : string) (allowedValues : list string)
    (r : SalesRecord) : bool :=
  match value_in column r with
  | Some (VStr v) => bool_decide (v ∈ allowedValues)
  | _ => false
  end.

(** totalSales: the sum of the sales amount over all rows. *)
Definition totalSales (dataset : DataFrame) : Q :=
  foldr Qplus 0%Q ((λ r, SALES r # 100) <$> dataset).

(** orderCount: the count of distinct order-number identifiers. *)
Definition orderCount (dataset : DataFrame) : Z :=
  Z.of_nat (size (list_to_set (ORDERNUMBER <$> dataset) : gset Z)).

(** avgSalesPerOrder: totalSales / orderCount / 1,000. *)
Definition avgSalesPerOrder (dataset : DataFrame) : Q :=
  (totalSales dataset / inject_Z (orderCount dataset) / 1000)%Q.

(** uniqueCustomerCount: the count of distinct customer names. *)
Definition uniqueCustomerCount (dataset : DataFrame) : Z :=
  Z.of_nat (size (list_to_set (CUSTOMERNAME <$> dataset) : gset string)).

(** [u] hundredths is a two-decimal rounding of [q]: no other count of
    hundredths is nearer. *)
Definition round2 (q : Q) (u : Z) : Prop :=
  (Qabs ((u # 100) - q) <= 1 # 200)%Q.


Definition is_digit (c : ascii) : bool :=
  (48 <=? nat_of_ascii c)%nat && (nat_of_ascii c <=? 57)%nat.

(** [text] ends with a point and exactly two digits. *)
Definition two_decimal_places (text : string) : Prop :=
  ∃ int_part a b,
    text = int_part ++ "." ++ String a (String b "")
    ∧ is_digit a = true ∧ is_digit b = true.


(** The adjusted R² is reported as undefined or not applicable: the
    computation ends without an exception and its value is no number. *)
Definition not_applicable (r : result scalar) : Prop :=
  ∃ x, r = Ok x ∧ ∀ q, to_float x ≠ Fin q.

(** The blocks of the partition of a dataset by a categorical column: one
    block per value of the column, holding the rows with that value. *)
Definition partition_by (column : string) (dataset : DataFrame)
    : result (list DataFrame) :=
  s ← getitem dataset column;
  mapM (λ v, Toy.filter_data dataset column [v])
       (unique (omap (λ c, match c with VStr v => Some v | _ => None end) s)).

(** The sum of a list of totals, one per block. *)
Definition sumZ (totals : list Z) : Z := foldr Z.add 0 totals.

(** The block of a value of a column read by [g]: the rows that carry it;
    and the rows that carry one of several values. *)
Definition block (g : SalesRecord → string) (data : DataFrame) (v : string)
    : DataFrame :=
  List.filter (λ r, bool_decide (g r ∈ [v])) data.

Definition among (g : SalesRecord → string) (vs : list string)
    (data : DataFrame) : DataFrame :=
  List.filter (λ r, bool_decide (g r ∈ vs)) data.

(** The categorical columns, with their typed accessors. *)
Definition categorical : list (string * (SalesRecord → string)) :=
  [ ("PRODUCTLINE", PRODUCTLINE); ("COUNTRY", COUNTRY); ("STATUS", STATUS);
    ("CUSTOMERNAME", CUSTOMERNAME); ("PRODUCTCODE", PRODUCTCODE) ].

End Spec.

(* ===================================================================== *)
(** ** Sample data and auxiliary definitions *)
(* ===================================================================== *)

Definition d_2003_02_24 := mkTimestamp 2003 2 24.
Definition d_2004_11_05 := mkTimestamp 2004 11 5.

(** The three-row scenario: quantities 10, 20, 30 at price 5.00, sales 50,
    100 and 150. *)
Definition scenario3 : DataFrame :=
  [ mkRow 10107 10 500 5000 d_2003_02_24 "Motorcycles" "USA" "Shipped"
      "Land of Toys Inc." "S10_1678" 1 1;
    mkRow 10107 20 500 10000 d_2003_02_24 "Classic Cars" "USA" "Shipped"
      "Land of Toys Inc." "S10_1949" 1 2;
    mkRow 10121 30 500 15000 d_2004_11_05 "Motorcycles" "France" "Shipped"
      "Australian Collectors, Co." "S10_1678" 4 1 ].

(** Two lines of one order, same product line, country and quarter. *)
Definition two_rows : DataFrame :=
  [ mkRow 10107 10 500 5000 d_2003_02_24 "Motorcycles" "USA" "Shipped"
      "Land of Toys Inc." "S10_1678" 1 1;
    mkRow 10107 20 500 10000 d_2003_02_24 "Motorcycles" "USA" "Shipped"
      "Land of Toys Inc." "S10_2016" 1 2 ].

(** A stand-in for scikit-learn, enough to run the page: the "forest"
    remembers the mean target and predicts it everywhere. *)
Definition mean_forest : Predict.Sklearn := {|
  Predict.forest := Q;
  Predict.fit := λ X y, (sum_hundredths y # 100) / inject_Z (len y);
  Predict.predict := λ m X, (λ _, Fin m) <$> X;
  Predict.feature_importances_ := λ _, (Fin (1 # 2), Fin (1 # 2));
  Predict.r2_score := λ y y_pred, PyFloat (Fin (1 # 2))
|}%Q.

Definition no_widget_touched : Predict.widgets := {|
  Predict.product_entered := None;
  Predict.country_entered := None;
  Predict.quarter_entered := None;
  Predict.quantity_entered := None;
  Predict.price_entered := None;
  Predict.predict_clicked := false
|}.

Definition predict_clicked_15_at_5 : Predict.widgets := {|
  Predict.product_entered := Some "Motorcycles";
  Predict.country_entered := Some "USA";
  Predict.quarter_entered := Some 1;
  Predict.quantity_entered := Some 15;
  Predict.price_entered := Some 5;
  Predict.predict_clicked := true
|}.

(** A search with the date pickers set to the year 2004 and every other
    filter left as it is. *)
Definition dates_2004 : Toy.widgets := {|
  Toy.start_date_entered := Some (mkTimestamp 2004 1 1);
  Toy.end_date_entered := Some (mkTimestamp 2004 12 31);
  Toy.product_lines_entered := None;
  Toy.countries_entered := None;
  Toy.statuses_entered := None;
  Toy.search_clicked := true;
  Toy.combine_entered := None;
  Toy.feedback_entered := "";
  Toy.submit_clicked := false
|}.

Definition transportation_dates_2004 : Transportation.widgets := {|
  Transportation.start_date_entered := Some (mkTimestamp 2004 1 1);
  Transportation.end_date_entered := Some (mkTimestamp 2004 12 31);
  Transportation.product_lines_entered := None;
  Transportation.countries_entered := None;
  Transportation.statuses_entered := None;
  Transportation.combine_entered := None
|}.

(** France alone is selected, and feedback is submitted. *)
Definition france_selected : Toy.widgets := {|
  Toy.start_date_entered := None;
  Toy.end_date_entered := None;
  Toy.product_lines_entered := None;
  Toy.countries_entered := Some ["France"; "Atlantis"];
  Toy.statuses_entered := None;
  Toy.search_clicked := true;
  Toy.combine_entered := Some false;
  Toy.feedback_entered := "Nice";
  Toy.submit_clicked := true
|}.

(** A row whose customer name holds a quote, a comma and both line
    breaks. *)
Definition awkward_row : SalesRecord :=
  mkRow 10200 1 9570 9570 d_2004_11_05 "Trains" "UK" "Shipped"
    ("Toys " ++ String dquote ("R" ++ String dquote (" Us, " ++ String LF ("Ltd" ++ String CR "."))))
    "S18_3259" 4 1.

Definition not_enough_data : string :=
  "Not enough data for selected filters. Please adjust the filter options.".

Definition download_note : string :=
  "You can download the filtered data above in CSV format for further analysis.".

Definition header_line : string :=
  "ORDERNUMBER,QUANTITYORDERED,PRICEEACH,SALES,ORDERDATE,PRODUCTLINE,COUNTRY,STATUS,CUSTOMERNAME,PRODUCTCODE,QTR_ID,ORDERLINENUMBER"
  ++ String LF "".


Definition two_digits (s : string) : bool :=
  match s with
  | String a (String b EmptyString) => Spec.is_digit a && Spec.is_digit b
  | _ => false
  end.

(* ===================================================================== *)
(** ** Predicates used to state what the pages select and render *)
(* ===================================================================== *)

(** A filter lets a row through when no value is given or the row's value
    in the column is one of the values. *)
Definition passes (column : string) (values : list string) (r : SalesRecord)
    : bool :=
  negb (truthy values) || Spec.allowed column values r.

(** The same for a selection of the sidebar and the value of a row. *)
Definition lets_through (selected : list string) (v : string) : bool :=
  negb (truthy selected) || bool_decide (v ∈ selected).

(** The rows that the three selections of a dashboard let through. *)
Definition shown_rows (product_lines countries statuses : list string)
    (data : DataFrame) : DataFrame :=
  List.filter
    (λ r, lets_through product_lines (PRODUCTLINE r)
          && lets_through countries (COUNTRY r)
          && lets_through statuses (STATUS r))
    data.

(** A row carries the three values selected on the regression page. *)
Definition matches (product country : option string) (quarter : option Z)
    (r : SalesRecord) : bool :=
  bool_decide (Some (PRODUCTLINE r) = product)
  && bool_decide (Some (COUNTRY r) = country)
  && bool_decide (Some (QTR_ID r) = quarter).

(** The tiles of the KPI row, one per name that has a value, four at
    most. *)
Definition tiles (names : list string) (kpis : list pyobj) : list event :=
  (λ nv, Metric nv.1 nv.2) <$> take 4 (zip names kpis).

(** The number of metric tiles among events. *)
Definition count_metrics (es : list event) : nat :=
  length (List.filter (λ e, match e with Metric _ _ => true | _ => false end) es).

(** What the data part of a dashboard renders for the rows it shows. *)
Definition data_part (kpis : list pyobj) (shown : DataFrame) (combine : bool)
    : list event :=
  Header "KPI Metrics" :: tiles Toy.kpi_names kpis
  ++ [Charts shown combine; Header "Export Data";
      DownloadButton (to_csv shown); Write download_note].

Definition combine_of (entered : option bool) : bool :=
  match entered with Some b => b | None => true end.

(** The selections [display_sidebar] returns for a state of the widgets. *)
Definition product_lines_of (entered : option (list string)) (data : DataFrame)
    : list string :=
  multiselect (Toy.sorted (unique (PRODUCTLINE <$> data)))
              (Toy.sorted (unique (PRODUCTLINE <$> data))) entered.

Definition countries_of (entered : option (list string)) (data : DataFrame)
    : list string :=
  multiselect (unique (COUNTRY <$> data)) [] entered.

Definition statuses_of (entered : option (list string)) (data : DataFrame)
    : list string :=
  multiselect (unique (STATUS <$> data)) [] entered.

(** Widget states used as sample inputs. *)
Definition nothing_entered : Toy.widgets := {|
  Toy.start_date_entered := None;
  Toy.end_date_entered := None;
  Toy.product_lines_entered := None;
  Toy.countries_entered := None;
  Toy.statuses_entered := None;
  Toy.search_clicked := false;
  Toy.combine_entered := None;
  Toy.feedback_entered := "";
  Toy.submit_clicked := false
|}.

Definition transportation_untouched : Transportation.widgets := {|
  Transportation.start_date_entered := None;
  Transportation.end_date_entered := None;
  Transportation.product_lines_entered := None;
  Transportation.countries_entered := None;
  Transportation.statuses_entered := None;
  Transportation.combine_entered := None
|}.

(** Three order lines of one order that share product line, country and
    quarter. *)
Definition three_rows : DataFrame :=
  (two_rows
   ++ [ mkRow 10107 30 500 15000 d_2003_02_24 "Motorcycles" "USA" "Shipped"
          "Land of Toys Inc." "S10_4698" 1 3 ])%list.

(** The same stand-in for scikit-learn with an [r2_score] that answers with
    a numpy scalar, as the older releases do. *)
Definition numpy_forest : Predict.Sklearn := {|
  Predict.forest := Q;
  Predict.fit := λ X y, (sum_hundredths y # 100) / inject_Z (len y);
  Predict.predict := λ m X, (λ _, Fin m) <$> X;
  Predict.feature_importances_ := λ _, (Fin (1 # 2), Fin (1 # 2));
  Predict.r2_score := λ y y_pred, NpFloat (Fin (1 # 2))
|}%Q.

(** The squared residuals [(y - y_pred) ** 2] of finite predictions. *)
Definition squared_residuals (y : list Z) (y_pred : list Q) : list Q :=
  zip_with (λ t p, ((t # 100) + - p) * ((t # 100) + - p))%Q y y_pred.

(* ===================================================================== *)
(** ** Reading numerals *)
(* ===================================================================== *)

(** What a numeral denotes, read digit by digit.  Nothing here is shared
    with the code that writes numerals: the contracts below say what a text
    shows by reading it. *)
Module Numeral.

(** The value of a decimal digit. *)
Definition digit (c : ascii) : option Z :=
  let n := Z.of_nat (nat_of_ascii c) in
  if (48 <=? n) && (n <=? 57) then Some (n - 48) else None.

(** The number a string of digits writes, continuing from [acc]. *)
Fixpoint digits (acc : Z) (s : string) : option Z :=
  match s with
  | EmptyString => Some acc
  | String c s' =>
      match digit c with
      | Some d => digits (10 * acc + d) s'
      | None => None
      end
  end.

(** A natural numeral: one digit at least. *)
Definition natural (s : string) : option Z :=
  match s with
  | EmptyString => None
  | _ => digits 0 s
  end.

(** The text before and after the first occurrence of [sep]. *)
Fixpoint split_at (sep : ascii) (s : string) : option (string * string) :=
  match s with
  | EmptyString => None
  | String c s' =>
      if Ascii.eqb c sep then Some (EmptyString, s')
      else match split_at sep s' with
           | Some (a, b) => Some (String c a, b)
           | None => None
           end
  end.

(** A leading minus sign, and the rest. *)
Definition signed (text : string) : bool * string :=
  match text with
  | String c s => if Ascii.eqb c "-" then (true, s) else (false, text)
  | EmptyString => (false, text)
  end.

Definition with_sign (neg : bool) (n : Z) : Z := if neg then - n else n.

(** An integer numeral. *)
Definition integer (text : string) : option Z :=
  let '(neg, body) := signed text in
  with_sign neg <$> natural body.

(** The count of hundredths a numeral with exactly two decimals denotes:
    an optional minus sign, digits, a point, two digits. *)
Definition hundredths (text : string) : option Z :=
  let '(neg, body) := signed text in
  match split_at "." body with
  | Some (i, f) =>
      if Nat.eqb (String.length f) 2 then
        match natural i, natural f with
        | Some n, Some m => Some (with_sign neg (100 * n + m))
        | _, _ => None
        end
      else None
  | None => None
  end.

(** The count of hundredths an amount with one or two decimals denotes. *)
Definition amount (text : string) : option Z :=
  let '(neg, body) := signed text in
  match split_at "." body with
  | Some (i, f) =>
      match natural i, natural f with
      | Some n, Some m =>
          match String.length f with
          | 1%nat => Some (with_sign neg (100 * n + 10 * m))
          | 2%nat => Some (with_sign neg (100 * n + m))
          | _ => None
          end
      | _, _ => None
      end
  | None => None
  end.

(** A calendar date written year-month-day. *)
Definition date (text : string) : option Timestamp :=
  match split_at "-" text with
  | Some (y, md) =>
      match split_at "-" md with
      | Some (m, d) =>
          match natural y, natural m, natural d with
          | Some y', Some m', Some d' => Some (mkTimestamp y' m' d')
          | _, _, _ => None
          end
      | None => None
      end
  | None => None
  end.

(** The texts [read_csv] takes for a missing value. *)
Definition na_values : list string :=
  [ ""; "#N/A"; "#N/A N/A"; "#NA"; "-1.#IND"; "-1.#QNAN"; "-NaN"; "-nan";
    "1.#IND"; "1.#QNAN"; "<NA>"; "N/A"; "NA"; "NULL"; "NaN"; "None"; "n/a";
    "nan"; "null" ].

(** A text cell, unless it stands for a missing value. *)
Definition text (s : string) : option string :=
  if bool_decide (s ∈ na_values) then None else Some s.

(** A record of the sales file read cell by cell, each by the type of its
    column. *)
Definition row (fields : list string) : option SalesRecord :=
  match fields with
  | [f1; f2; f3; f4; f5; f6; f7; f8; f9; f10; f11; f12] =>
      match integer f1, integer f2, amount f3, amount f4, date f5, text f6 with
      | Some ordernumber, Some quantity, Some price, Some sales, Some orderdate,
        Some productline =>
          match text f7, text f8, text f9, text f10, integer f11, integer f12 with
          | Some country, Some status, Some customer, Some code, Some qtr,
            Some line =>
              Some (mkRow ordernumber quantity price sales orderdate
                          productline country status customer code qtr line)
          | _, _, _, _, _, _ => None
          end
      | _, _, _, _, _, _ => None
      end
  | _ => None
  end.

(** [text] shows [q] rounded to two decimals: read as a numeral with two
    decimals, it denotes a count of hundredths that no other count of
    hundredths beats in nearness to [q]. *)
Definition shows_two_decimals (q : Q) (text : string) : Prop :=
  ∃ u, hundredths text = Some u ∧ Spec.round2 q u.

End Numeral.

(** Recognisers used in the proofs about numerals and records. *)
Fixpoint all_digits (s : string) : bool :=
  match s with
  | EmptyString => true
  | String c s' => bool_decide (is_Some (Numeral.digit c)) && all_digits s'
  end.

Definition without_CR (f : list ascii) : bool :=
  forallb (λ c, negb (Ascii.eqb c CR)) f.

(** What the export is proved on. *)
Definition no_CR (s : string) : bool := without_CR (list_ascii_of_string s).

(** A text cell that is written as it is and read as text: no carriage
    return in it, and not one of the texts read as a missing value. *)
Definition plain_text (s : string) : Prop :=
  no_CR s = true ∧ s ∉ Numeral.na_values.

(** A row of the sales file as the model covers it: amounts of at most
    fifteen significant digits, a date of the calendar, plain text cells. *)
Definition exportable (r : SalesRecord) : Prop :=
  Z.abs (PRICEEACH r) < 10 ^ 15 ∧ Z.abs (SALES r) < 10 ^ 15
  ∧ 0 ≤ year (ORDERDATE r) ≤ 9999
  ∧ 1 ≤ month (ORDERDATE r) ≤ 12 ∧ 1 ≤ day (ORDERDATE r) ≤ 31
  ∧ plain_text (PRODUCTLINE r) ∧ plain_text (COUNTRY r)
  ∧ plain_text (STATUS r) ∧ plain_text (CUSTOMERNAME r)
  ∧ plain_text (PRODUCTCODE r).

(** A row whose customer name holds a carriage return and nothing else out
    of the ordinary. *)
Definition cr_row : SalesRecord :=
  mkRow 10200 1 9570 9570 d_2004_11_05 "Trains" "UK" "Shipped"
    ("Toys" ++ String CR "Us") "S18_3259" 4 1.

(* ===================================================================== *)
(** ** Checks of the model on concrete inputs *)
(* ===================================================================== *)

Example format_f_1 : format_f 2 (Fin (10032628 # 1000000)) = "10.03".
Proof. vm_compute. reflexivity. Qed.
Example format_f_2 : format_f 2 (Fin (-1 # 1000)) = "-0.00".
Proof. vm_compute. reflexivity. Qed.
Example format_f_3 : format_f 4 (Fin (3 # 4)) = "0.7500".
Proof. vm_compute. reflexivity. Qed.
Example format_f_4 : format_f 2 (Fin (1005 # 1000)) = "1.00".
Proof. vm_compute. reflexivity. Qed.
Example format_f_5 : format_f 2 (Fin (-1995 # 1000)) = "-2.00".
Proof. vm_compute. reflexivity. Qed.
Example format_f_6 : format_f 0 (Fin (5 # 2)) = "2".
Proof. vm_compute. reflexivity. Qed.
Example format_commas_1 : format_f_commas 2 (Fin (123456789 # 100)) = "1,234,567.89".
Proof. vm_compute. reflexivity. Qed.
Example format_commas_2 : format_f_commas 2 (Fin (-100000 # 100)) = "-1,000.00".
Proof. vm_compute. reflexivity. Qed.
Example format_commas_3 : format_f_commas 2 (Fin (99999 # 100)) = "999.99".
Proof. vm_compute. reflexivity. Qed.
Example truediv_np : truediv (NpFloat (Fin 0)) (PyInt 0) = Ok (NpFloat NaN).
Proof. reflexivity. Qed.
Example truediv_np_inf : truediv (NpFloat (Fin 1)) (PyInt 0) = Ok (NpFloat PosInf).
Proof. reflexivity. Qed.
Example truediv_py : truediv (PyFloat (Fin 1)) (PyInt 0) = Raise ZeroDivisionError.
Proof. reflexivity. Qed.

Example kpis_scenario3 :
  Toy.calculate_kpis scenario3
  = Ok [PStr "0.00M"; PInt 2; PStr "0.15K"; PInt 2].
Proof. vm_compute. reflexivity. Qed.


Example filter_scenario3 :
  Toy.filter_data scenario3 "COUNTRY" ["France"] = Ok (drop 2 scenario3).
Proof. vm_compute. reflexivity. Qed.

Example filter_unknown_column :
  Toy.filter_data scenario3 "REGION" ["EMEA"] = Raise (KeyError "REGION").
Proof. vm_compute. reflexivity. Qed.

Example filter_unknown_column_no_value :
  Toy.filter_data scenario3 "REGION" [] = Ok scenario3.
Proof. vm_compute. reflexivity. Qed.

Example to_csv_scenario3 :
  to_csv (drop 2 scenario3)
  = header_line
    ++ "10121,30,5.0,150.0,2004-11-05,Motorcycles,France,Shipped,"
    ++ String dquote ("Australian Collectors, Co." ++ String dquote (",S10_1678,4,1" ++ String LF "")).
Proof. vm_compute. reflexivity. Qed.

Example read_csv_scenario3 :
  read_csv (to_csv scenario3) = Ok (columns, text_of <$> scenario3).
Proof. vm_compute. reflexivity. Qed.

Example read_csv_awkward_row :
  read_csv (to_csv [awkward_row]) = Ok (columns, [text_of awkward_row]).
Proof. vm_compute. reflexivity. Qed.

Example read_csv_crlf :
  read_csv ("a,b" ++ String CR (String LF ("1,2" ++ String CR (String LF ""))))
  = Ok (["a"; "b"], [["1"; "2"]]).
Proof. vm_compute. reflexivity. Qed.

Example read_csv_row_label :
  read_csv ("a,b" ++ String LF ("1,2,3" ++ String LF ""))
  = Ok (["a"; "b"], [["2"; "3"]]).
Proof. vm_compute. reflexivity. Qed.

Example read_csv_short_row :
  read_csv ("a,b" ++ String LF ("1,2" ++ String LF ("3" ++ String LF "")))
  = Ok (["a"; "b"], [["1"; "2"]; ["3"; ""]]).
Proof. vm_compute. reflexivity. Qed.

Example read_csv_ragged :
  read_csv ("a,b" ++ String LF ("1,2" ++ String LF ("3,4,5" ++ String LF "")))
  = Raise ParserError.
Proof. vm_compute. reflexivity. Qed.

Example read_csv_empty : read_csv "" = Raise EmptyDataError.
Proof. reflexivity. Qed.

Example sorted_1 :
  Toy.sorted ["Trains"; "Classic Cars"; "Motorcycles"]
  = ["Classic Cars"; "Motorcycles"; "Trains"].
Proof. vm_compute. reflexivity. Qed.

Example unique_1 : unique [3; 1; 3; 2; 1] = [3; 1; 2].
Proof. vm_compute. reflexivity. Qed.

Example main_dates_2004 :
  Toy.main dates_2004 scenario3
  = Run [ Title "📊 Toy Store Sales Dashboard";
          Header "Filters";
          Info "Jerald Ting Dashboard Studio";
          Header "KPI Metrics";
          Metric "Total Sales" (PStr "0.00M");
          Metric "Total Orders" (PInt 2);
          Metric "Average Sales per Order" (PStr "0.15K");
          Metric "Unique Customers" (PInt 2);
          Charts scenario3 true;
          Header "Export Data";
          DownloadButton (to_csv scenario3);
          Write download_note;
          Header "Your Feedback" ]
        (Ok ()).
Proof. vm_compute. reflexivity. Qed.

Example transportation_main_dates_2004 :
  Transportation.main transportation_dates_2004 scenario3
  = Run [ Title "📊 Transportation Sales Dashboard";
          Header "Filters";
          Info "Jerald Ting Dashboard Studio";
          Header "KPI Metrics";
          Metric "Total Sales" (PStr "0.00M");
          Metric "Total Orders" (PInt 2);
          Metric "Average Sales per Order" (PStr "0.15K");
          Metric "Unique Customers" (PInt 2);
          Charts scenario3 true;
          Header "Export Data";
          DownloadButton (to_csv scenario3);
          Write download_note ]
        (Ok ()).
Proof. vm_compute. reflexivity. Qed.

Example main_france_selected :
  Toy.main france_selected scenario3
  = Run [ Title "📊 Toy Store Sales Dashboard";
          Header "Filters";
          Info "Jerald Ting Dashboard Studio";
          Header "KPI Metrics";
          Metric "Total Sales" (PStr "0.00M");
          Metric "Total Orders" (PInt 1);
          Metric "Average Sales per Order" (PStr "0.15K");
          Metric "Unique Customers" (PInt 1);
          Charts (drop 2 scenario3) false;
          Header "Export Data";
          DownloadButton (to_csv (drop 2 scenario3));
          Write download_note;
          Header "Your Feedback";
          Success "Thank you for your feedback!" ]
        (Ok ()).
Proof. vm_compute. reflexivity. Qed.

Example page_scenario3 :
  @Predict.page mean_forest no_widget_touched scenario3
  = Run [Header "Filter Data"; Warning not_enough_data] (Ok ()).
Proof. vm_compute. reflexivity. Qed.

Example page_two_rows :
  @Predict.page mean_forest no_widget_touched two_rows
  = Run [ Header "Filter Data";
          ModelFit [(10, 500); (20, 500)] [5000; 10000];
          Subheader "Random Forest Model Metrics and Feature Importance";
          Metric "R-squared" (PStr "0.5000");
          Metric "Adjusted R-squared" (PStr "1.5000");
          Metric "SSE" (PStr "1250.00");
          Metric "Ordered Quantity Feature Importance" (PStr "0.5000");
          Metric "Price for Each Feature Importance" (PStr "0.5000");
          Subheader "Model Visualizations";
          Pyplot;
          Header "Make a Prediction";
          Write "Adjust the inputs above and click 'Predict Sales' to get an estimated sales value.";
          Write "This model uses Random Forest Regressor to predict sales based on order details." ]
        (Ok ()).
Proof. vm_compute. reflexivity. Qed.

Example page_predict_clicked :
  events (@Predict.page mean_forest predict_clicked_15_at_5 two_rows)
  !! 11%nat = Some (Markdown "### Predicted Sales: $75.00").
Proof. vm_compute. reflexivity. Qed.

Example adjusted_r2_three_rows_py :
  Predict.adjusted_r2 (PyFloat (Fin (1 # 2))) 3 2 = Raise ZeroDivisionError.
Proof. reflexivity. Qed.

Example adjusted_r2_three_rows_np :
  Predict.adjusted_r2 (NpFloat (Fin (1 # 2))) 3 2 = Ok (NpFloat NegInf).
Proof. reflexivity. Qed.
(* ===================================================================== *)
(** ** What the written numerals read as *)
(* ===================================================================== *)

Lemma app_String c (a b : string) : (String c a ++ b)%string = String c (a ++ b).
Proof. reflexivity. Qed.

Lemma app_empty_l (b : string) : (EmptyString ++ b)%string = b.
Proof. reflexivity. Qed.

Lemma app_empty_r (a : string) : (a ++ EmptyString)%string = a.
Proof. induction a as [|c a IH]; [done|]. by rewrite app_String, IH. Qed.

Lemma app_string_assoc (a b c : string) :
  ((a ++ b) ++ c)%string = (a ++ (b ++ c))%string.
Proof. induction a as [|x a IH]; [done|]. by rewrite !app_String, IH. Qed.

Lemma length_app_string (a b : string) :
  String.length (a ++ b) = (String.length a + String.length b)%nat.
Proof. induction a as [|x a IH]; [done|]. rewrite app_String. simpl. lia. Qed.

Lemma all_digits_app (a b : string) :
  all_digits (a ++ b) = all_digits a && all_digits b.
Proof.
  induction a as [|x a IH]; [done|]. rewrite app_String. simpl.
  by rewrite IH, andb_assoc.
Qed.

Lemma digit_char (d : N) :
  (d < 10)%N → Numeral.digit (pretty_N_char d) = Some (Z.of_N d).
Proof.
  intros Hd.
  assert (d = 0 ∨ d = 1 ∨ d = 2 ∨ d = 3 ∨ d = 4 ∨ d = 5 ∨ d = 6 ∨ d = 7
          ∨ d = 8 ∨ d = 9)%N as Hc by lia.
  repeat (destruct Hc as [->|Hc]; [reflexivity|]). by subst.
Qed.

Lemma digits_app (a b : string) (acc n : Z) :
  Numeral.digits acc a = Some n →
  Numeral.digits acc (a ++ b) = Numeral.digits n b.
Proof.
  revert acc. induction a as [|c a IH]; intros acc.
  - rewrite app_empty_l. by intros [= ->].
  - rewrite app_String. cbn [Numeral.digits].
    destruct (Numeral.digit c); [apply IH|done].
Qed.

(** The digits [pretty] writes in front of [s] read as the number written,
    shifted by what was read before. *)
Lemma pretty_N_go_reads (x : N) :
  ∃ ds, all_digits ds = true
        ∧ ((0 < x)%N → ds ≠ EmptyString)
        ∧ (∀ s, pretty_N_go x s = (ds ++ s)%string)
        ∧ ∀ acc, Numeral.digits acc ds
                 = Some (acc * 10 ^ Z.of_nat (String.length ds) + Z.of_N x).
Proof.
  induction (N.lt_wf_0 x) as [x _ IH].
  assert (x = 0 ∨ 0 < x)%N as [->|Hpos] by lia.
  - exists EmptyString. repeat split; [lia|]. intros acc. simpl. f_equal. lia.
  - destruct (IH (x `div` 10)%N) as (ds & Hall & _ & Hgo & Hread);
      [by apply N.div_lt|].
    exists (ds ++ String (pretty_N_char (x `mod` 10)) EmptyString)%string.
    assert (x `mod` 10 < 10)%N as Hm by (by apply N.mod_lt).
    split; [|split; [|split]].
    + rewrite all_digits_app, Hall. simpl.
      rewrite (digit_char _ Hm). reflexivity.
    + intros _ E. apply (f_equal String.length) in E.
      rewrite length_app_string in E. simpl in E. lia.
    + intros s. rewrite pretty_N_go_step, Hgo, app_string_assoc by done.
      reflexivity.
    + intros acc. rewrite (digits_app _ _ _ _ (Hread acc)). simpl.
      rewrite (digit_char _ Hm). f_equal.
      rewrite length_app_string. simpl.
      rewrite Nat2Z.inj_add, Z.pow_add_r by lia.
      pose proof (N.div_mod x 10 ltac:(done)) as Hx.
      apply (f_equal Z.of_N) in Hx. rewrite N2Z.inj_add, N2Z.inj_mul in Hx.
      change (Z.of_N 10) with 10 in Hx. change (10 ^ Z.of_nat 1) with 10. lia.
Qed.

Lemma natural_digits (s : string) (n : Z) :
  s ≠ EmptyString → Numeral.digits 0 s = Some n → Numeral.natural s = Some n.
Proof. by destruct s. Qed.

(** What [pretty] writes for a natural number reads as that number. *)
Lemma pretty_reads (n : Z) :
  0 ≤ n →
  all_digits (pretty n) = true ∧ Numeral.natural (pretty n) = Some n.
Proof.
  intros Hn. destruct n as [|p|p]; [done| |lia].
  change (pretty (Z.pos p)) with (pretty_N_go (N.pos p) EmptyString).
  destruct (pretty_N_go_reads (N.pos p)) as (ds & Hall & Hne & Hgo & Hread).
  rewrite Hgo, app_empty_r. split; [done|].
  apply natural_digits; [by apply Hne|]. rewrite Hread. f_equal.
Qed.

Lemma split_at_digits (sep : ascii) (ds rest : string) :
  all_digits ds = true → Numeral.digit sep = None →
  Numeral.split_at sep (ds ++ String sep rest) = Some (ds, rest).
Proof.
  intros Hall Hsep. induction ds as [|c ds IH].
  - rewrite app_empty_l. simpl. by rewrite Ascii.eqb_refl.
  - rewrite app_String. simpl in *. apply andb_true_iff in Hall as [Hc Hall].
    apply bool_decide_eq_true in Hc.
    destruct (Ascii.eqb_spec c sep) as [->|_].
    + rewrite Hsep in Hc. by destruct Hc.
    + by rewrite (IH Hall).
Qed.

Lemma signed_digits (ds rest : string) (n : Z) :
  all_digits ds = true → Numeral.natural ds = Some n →
  Numeral.signed (ds ++ rest) = (false, (ds ++ rest)%string).
Proof.
  destruct ds as [|c ds]; [done|]. rewrite app_String. simpl.
  intros [Hc _]%andb_true_iff _. apply bool_decide_eq_true in Hc.
  destruct (Ascii.eqb_spec c "-") as [->|_]; [|done]. by destruct Hc.
Qed.

Lemma digits_zeros (k : nat) (s : string) :
  Numeral.digits 0 (zeros k ++ s) = Numeral.digits 0 s.
Proof.
  induction k as [|k IH]; [done|]. cbn [zeros]. rewrite app_String. exact IH.
Qed.

Lemma all_digits_zeros (k : nat) : all_digits (zeros k) = true.
Proof. induction k as [|k IH]; [done|]. exact IH. Qed.

(** A zero-filled natural number reads as that number. *)
Lemma zfill_reads (w : nat) (n : Z) :
  0 ≤ n →
  all_digits (zfill w n) = true ∧ Numeral.natural (zfill w n) = Some n.
Proof.
  intros Hn. destruct (pretty_reads n Hn) as [Hall Hnat]. unfold zfill.
  rewrite all_digits_app, all_digits_zeros, Hall. split; [done|].
  assert (Numeral.digits 0 (pretty n) = Some n) as Hd
    by (by destruct (pretty n)).
  apply natural_digits; [|by rewrite digits_zeros].
  intros E. apply (f_equal String.length) in E.
  rewrite length_app_string in E. destruct (pretty n); [done|]. simpl in E. lia.
Qed.

Lemma zfill_2_length (m : Z) :
  0 ≤ m < 100 → String.length (zfill 2 m) = 2%nat.
Proof.
  intros Hm.
  assert (forallb (λ k, Nat.eqb (String.length (zfill 2 k)) 2) (seqZ 0 100)
          = true) as Hall by (vm_compute; reflexivity).
  rewrite forallb_forall in Hall. apply Nat.eqb_eq, Hall.
  apply list_elem_of_In, elem_of_seqZ. lia.
Qed.

(** The numeral written for [units] hundredths reads as that count, with
    the sign written. *)
Lemma hundredths_decimal_text (neg : bool) (units : Z) :
  Numeral.hundredths (decimal_text 2 neg units)
  = Some (Numeral.with_sign neg (Z.abs units)).
Proof.
  unfold decimal_text. change (10 ^ Z.of_nat 2) with 100.
  set (a := Z.abs units).
  assert (0 ≤ a / 100) as Hi by (apply Z.div_pos; lia).
  assert (0 ≤ a `mod` 100 < 100) as Hf by (apply Z.mod_pos_bound; lia).
  destruct (pretty_reads _ Hi) as [Hall Hnat].
  destruct (zfill_reads 2 _ (proj1 Hf)) as [_ Hfrac].
  pose proof (zfill_2_length _ Hf) as Hlen.
  assert (Numeral.split_at "."
            (pretty (a / 100) ++ String "." (zfill 2 (a `mod` 100)))
          = Some (pretty (a / 100), zfill 2 (a `mod` 100))) as Hsplit
    by (by apply split_at_digits).
  assert (100 * (a / 100) + a `mod` 100 = a) as Ha
    by (pose proof (Z.div_mod a 100); lia).
  destruct neg.
  - change ("-" ++ pretty (a / 100) ++ "." ++ zfill 2 (a `mod` 100))%string
      with (String "-" (pretty (a / 100)
                        ++ String "." (zfill 2 (a `mod` 100)))).
    unfold Numeral.hundredths. cbn [Numeral.signed].
    change (Ascii.eqb "-" "-") with true. cbv iota.
    by rewrite Hsplit, Hlen, Hnat, Hfrac, Ha.
  - change ("" ++ pretty (a / 100) ++ "." ++ zfill 2 (a `mod` 100))%string
      with (pretty (a / 100) ++ String "." (zfill 2 (a `mod` 100)))%string.
    unfold Numeral.hundredths.
    rewrite (signed_digits _ _ _ Hall Hnat).
    by rewrite Hsplit, Hlen, Hnat, Hfrac, Ha.
Qed.

(* ===================================================================== *)
(** ** Filter engine *)
(* ===================================================================== *)

Section assoc_facts.
Context {A : Type}.

Lemma assoc_is_Some (k : string) (l : list (string * A)) :
  k ∈ l.*1 → is_Some (assoc k l).
Proof.
  induction l as [|[k' a] l IH]; simpl.
  - intros Hin. by apply elem_of_nil in Hin.
  - intros Hin. destruct (String.eqb k k') eqn:E; [by eexists|].
    apply elem_of_cons in Hin as [->|Hin]; [|by apply IH].
    by rewrite String.eqb_refl in E.
Qed.

Lemma assoc_Some_elem (k : string) (l : list (string * A)) a :
  assoc k l = Some a → (k, a) ∈ l.
Proof.
  induction l as [|[k' a'] l IH]; simpl; [done|].
  destruct (String.eqb k k') eqn:E.
  - apply String.eqb_eq in E as ->. intros [= ->]. apply elem_of_cons; auto.
  - intros Hl. apply elem_of_cons; auto.
Qed.
End assoc_facts.

Lemma truthy_nonempty {A} (l : list A) : l ≠ [] → truthy l = true.
Proof. by destruct l. Qed.

Lemma getitem_mask_isin (f : SalesRecord → cell) (values : list string)
    (data : DataFrame) :
  getitem_mask data (isin (f <$> data) values)
  = List.filter (λ r, match f r with
                      | VStr v => bool_decide (v ∈ values)
                      | _ => false
                      end) data.
Proof.
  unfold isin. rewrite <- list_fmap_compose.
  induction data as [|r data IH]; [done|].
  rewrite fmap_cons. cbn [getitem_mask List.filter]. rewrite IH.
  unfold compose. reflexivity.
Qed.


Lemma transportation_filter_data data column values :
  Transportation.filter_data data column values
  = Toy.filter_data data column values.
Proof. reflexivity. Qed.

Lemma filter_data_spec data column values :
  column ∈ columns → values ≠ [] →
  Toy.filter_data data column values
  = Ok (List.filter (Spec.allowed column values) data).
Proof.
  intros Hcol Hval. unfold Toy.filter_data, getitem.
  rewrite truthy_nonempty by done.
  destruct (assoc_is_Some column schema Hcol) as [f Hf].
  rewrite Hf. simpl. unfold mret, result_ret. f_equal.
  rewrite getitem_mask_isin. unfold Spec.allowed, Spec.value_in.
  rewrite Hf. reflexivity.
Qed.



(** C3. With no allowed value, [filter_data] of either dashboard returns
    its input unchanged, whatever the column. *)
Theorem filter_data_empty_is_identity data column :
  Toy.filter_data data column [] = Ok data
  ∧ Transportation.filter_data data column [] = Ok data.
Proof. split; reflexivity. Qed.

(* ===================================================================== *)
(** ** KPI aggregator *)
(* ===================================================================== *)

Section unique_facts.
Context `{Countable A}.
Implicit Types (s : list A) (seen : gset A).

Lemma unique_from_length seen s :
  length (unique_from seen s) = size (list_to_set s ∖ seen : gset A).
Proof.
  revert seen. induction s as [|x s IH]; intros seen; simpl.
  - replace (∅ ∖ seen) with (∅ : gset A) by set_solver.
    by rewrite size_empty.
  - destruct (decide (x ∈ seen)) as [Hin|Hout].
    + rewrite IH. f_equal. set_solver.
    + simpl. rewrite IH.
      replace (({[x]} ∪ list_to_set s) ∖ seen)
        with ({[x]} ∪ list_to_set s ∖ ({[x]} ∪ seen) : gset A).
      * symmetry. rewrite size_union by set_solver.
        by rewrite size_singleton.
      * apply set_eq. intros y. destruct (decide (y = x)); set_solver.
Qed.

Lemma nunique_size s : nunique s = Z.of_nat (size (list_to_set s : gset A)).
Proof.
  unfold nunique, unique. rewrite unique_from_length. do 2 f_equal.
  set_solver.
Qed.

Lemma unique_from_elem seen s x :
  x ∈ unique_from seen s ↔ x ∈ s ∧ x ∉ seen.
Proof.
  revert seen. induction s as [|y s IH]; intros seen; simpl.
  - split; [by intros ?%elem_of_nil|by intros [?%elem_of_nil _]].
  - destruct (decide (y ∈ seen)).
    + rewrite IH. set_solver.
    + rewrite elem_of_cons, IH. destruct (decide (x = y)); set_solver.
Qed.

Lemma unique_from_NoDup seen s : NoDup (unique_from seen s).
Proof.
  revert seen. induction s as [|y s IH]; intros seen; simpl.
  - constructor.
  - destruct (decide (y ∈ seen)); [apply IH|].
    constructor; [|apply IH]. rewrite unique_from_elem. set_solver.
Qed.

Lemma unique_elem s x : x ∈ unique s ↔ x ∈ s.
Proof. unfold unique. rewrite unique_from_elem. set_solver. Qed.

Lemma unique_NoDup s : NoDup (unique s).
Proof. apply unique_from_NoDup. Qed.


End unique_facts.

Lemma fold_left_add_acc (s : list Z) (a : Z) :
  fold_left Z.add s a = a + foldr Z.add 0 s.
Proof.
  revert a. induction s as [|x s IH]; intros a; simpl; [lia|].
  rewrite IH. lia.
Qed.

Lemma sum_hundredths_foldr (s : list Z) : sum_hundredths s = foldr Z.add 0 s.
Proof. unfold sum_hundredths. rewrite fold_left_add_acc. lia. Qed.

Lemma Qmake_add_100 (a b : Z) : ((a + b) # 100 == (a # 100) + (b # 100))%Q.
Proof. unfold Qeq, Qplus. simpl. lia. Qed.

Lemma totalSales_sum (data : DataFrame) :
  (Spec.totalSales data == sum_hundredths (SALES <$> data) # 100)%Q.
Proof.
  rewrite sum_hundredths_foldr. unfold Spec.totalSales.
  induction data as [|r data IH]; simpl; [reflexivity|].
  rewrite IH. symmetry. apply Qmake_add_100.
Qed.

(** *** Rounding to [p] decimals *)

Lemma round_half_even_scale (k : positive) (n : Z) (d : positive) :
  round_half_even (Z.pos k * n) (k * d) = round_half_even n d.
Proof.
  unfold round_half_even. rewrite Pos2Z.inj_mul.
  rewrite Z.div_mul_cancel_l by lia.
  rewrite Z.mul_mod_distr_l by lia.
  replace (2 * (Z.pos k * (n mod Z.pos d))) with (Z.pos k * (2 * (n mod Z.pos d))) by lia.
  rewrite <- Zmult_compare_compat_l by lia. reflexivity.
Qed.

Lemma round_half_even_Qeq (n n' : Z) (d d' : positive) :
  n * Z.pos d' = n' * Z.pos d →
  round_half_even n d = round_half_even n' d'.
Proof.
  intros E. rewrite <- (round_half_even_scale d' n d).
  rewrite <- (round_half_even_scale d n' d').
  f_equal; lia.
Qed.

Lemma shown_units_Qeq (p : nat) (q q' : Q) :
  (q == q')%Q → shown_units p q = shown_units p q'.
Proof.
  unfold Qeq, shown_units. intros E. apply round_half_even_Qeq. nia.
Qed.

Lemma Qis_neg_Qeq (q q' : Q) : (q == q')%Q → Qis_neg q = Qis_neg q'.
Proof.
  unfold Qeq, Qis_neg. intros E.
  destruct (Z.ltb_spec (Qnum q) 0), (Z.ltb_spec (Qnum q') 0); try reflexivity; nia.
Qed.

Lemma fixed_Qeq (p : nat) (q q' : Q) : (q == q')%Q → fixed p q = fixed p q'.
Proof.
  intros E. unfold fixed.
  by rewrite (shown_units_Qeq p q q' E), (Qis_neg_Qeq q q' E).
Qed.

Lemma round_half_even_near (n : Z) (d : positive) :
  2 * Z.abs (round_half_even n d * Z.pos d - n) ≤ Z.pos d.
Proof.
  unfold round_half_even.
  pose proof (Z.div_mod n (Z.pos d) ltac:(lia)) as E.
  pose proof (Z.mod_pos_bound n (Z.pos d) ltac:(lia)) as B.
  destruct (Z.compare_spec (2 * (n mod Z.pos d)) (Z.pos d));
    [destruct (Z.even _)| |]; lia.
Qed.

Lemma shown_units_round2 (q : Q) : Spec.round2 q (shown_units 2 q).
Proof.
  unfold Spec.round2, shown_units.
  pose proof (round_half_even_near (Qnum q * 10 ^ Z.of_nat 2) (Qden q)) as N.
  set (u := round_half_even _ _) in *. destruct q as [n d]. simpl in *.
  change (10 ^ 2) with 100 in N.
  unfold Qle, Qabs, Qminus, Qplus, Qopp. simpl.
  rewrite Pos2Z.inj_mul. lia.
Qed.


Lemma round_half_even_sign (n : Z) (d : positive) :
  (n < 0 → round_half_even n d ≤ 0) ∧ (0 ≤ n → 0 ≤ round_half_even n d).
Proof.
  unfold round_half_even.
  pose proof (Z.div_mod n (Z.pos d) ltac:(lia)) as E.
  pose proof (Z.mod_pos_bound n (Z.pos d) ltac:(lia)) as B.
  split; intros Hn.
  - assert (n / Z.pos d < 0) by nia.
    destruct (2 * (n `mod` Z.pos d) ?= Z.pos d); [destruct (Z.even _)|..]; lia.
  - assert (0 ≤ n / Z.pos d) by (apply Z.div_pos; lia).
    destruct (2 * (n `mod` Z.pos d) ?= Z.pos d); [destruct (Z.even _)|..]; lia.
Qed.

(** Read as a numeral, the text of [format(q, ".2f")] denotes a count of
    hundredths nearest to [q]. *)
Lemma fixed_shows_two_decimals (q : Q) : Numeral.shows_two_decimals q (fixed 2 q).
Proof.
  exists (shown_units 2 q). split; [|apply shown_units_round2].
  unfold fixed. rewrite hundredths_decimal_text. f_equal.
  unfold shown_units, Qis_neg, Numeral.with_sign.
  destruct (round_half_even_sign (Qnum q * 10 ^ Z.of_nat 2) (Qden q)) as [Hn Hp].
  change (10 ^ Z.of_nat 2) with 100 in *.
  destruct (Z.ltb_spec (Qnum q) 0); [specialize (Hn ltac:(lia))|specialize (Hp ltac:(lia))]; lia.
Qed.

Lemma transportation_calculate_kpis data :
  Transportation.calculate_kpis data = Toy.calculate_kpis data.
Proof. reflexivity. Qed.

(** What [calculate_kpis] computes, step by step: no division raises, since
    the dividend is the numpy scalar of the sum. *)
Lemma calculate_kpis_eq data :
  let total := (sum_hundredths (SALES <$> data) # 100)%Q in
  let orders := nunique (ORDERNUMBER <$> data) in
  Toy.calculate_kpis data
  = Ok [PStr (fixed 2 (total / 1000000) ++ "M");
        PInt orders;
        PStr (format_f 2 (fdiv (fdiv (Fin total) (Fin (inject_Z orders)))
                               (Fin 1000)) ++ "K");
        PInt (nunique (CUSTOMERNAME <$> data))].
Proof. reflexivity. Qed.

Lemma orderCount_nunique data :
  Spec.orderCount data = nunique (ORDERNUMBER <$> data).
Proof. unfold Spec.orderCount. by rewrite nunique_size. Qed.

Lemma uniqueCustomerCount_nunique data :
  Spec.uniqueCustomerCount data = nunique (CUSTOMERNAME <$> data).
Proof. unfold Spec.uniqueCustomerCount. by rewrite nunique_size. Qed.


Lemma fdiv_per_order (total : Q) (orders : Z) :
  orders ≠ 0 →
  fdiv (fdiv (Fin total) (Fin (inject_Z orders))) (Fin 1000)
  = Fin (total / inject_Z orders / 1000).
Proof.
  intros Hne. unfold fdiv at 2. unfold Qis_zero. simpl.
  destruct (Z.eqb_spec orders 0); [done|]. reflexivity.
Qed.

Lemma average_text data :
  Spec.orderCount data ≠ 0 →
  format_f 2 (fdiv (fdiv (Fin (sum_hundredths (SALES <$> data) # 100))
                         (Fin (inject_Z (nunique (ORDERNUMBER <$> data)))))
                   (Fin 1000))
  = fixed 2 (Spec.avgSalesPerOrder data).
Proof.
  intros Hne. rewrite orderCount_nunique in Hne.
  rewrite fdiv_per_order by done. simpl. apply fixed_Qeq.
  unfold Spec.avgSalesPerOrder.
  rewrite totalSales_sum, orderCount_nunique. reflexivity.
Qed.

Lemma total_text data :
  fixed 2 ((sum_hundredths (SALES <$> data) # 100) / 1000000)
  = fixed 2 (Spec.totalSales data / 1000000).
Proof. apply fixed_Qeq. by rewrite totalSales_sum. Qed.

(** C1, as the code has it. For every dataset, [calculate_kpis] of either
    dashboard returns four elements: the first reads as the sum of the
    sales amounts divided by 1,000,000 and rounded to two decimals, the
    second is the number of distinct order numbers, the fourth the number of
    distinct customer names; and for every dataset with at least one order
    the third reads as totalSales / orderCount / 1,000 rounded to two
    decimals. *)
Theorem calculate_kpis_statistics data :
  ∃ total_text avg_text,
    Toy.calculate_kpis data
    = Ok [PStr (total_text ++ "M"); PInt (Spec.orderCount data);
          PStr (avg_text ++ "K"); PInt (Spec.uniqueCustomerCount data)]
    ∧ Transportation.calculate_kpis data = Toy.calculate_kpis data
    ∧ Numeral.shows_two_decimals (Spec.totalSales data / 1000000) total_text
    ∧ (Spec.orderCount data ≠ 0 →
       Numeral.shows_two_decimals (Spec.avgSalesPerOrder data) avg_text).
Proof.
  eexists _, _. rewrite calculate_kpis_eq.
  rewrite orderCount_nunique, uniqueCustomerCount_nunique.
  split; [reflexivity|]. split; [reflexivity|]. split.
  - rewrite total_text. apply fixed_shows_two_decimals.
  - intros Hne. rewrite <- orderCount_nunique in Hne.
    rewrite average_text by done. apply fixed_shows_two_decimals.
Qed.

Lemma calculate_kpis_statistics_witness :
  ∃ total_text avg_text,
    Toy.calculate_kpis scenario3
    = Ok [PStr (total_text ++ "M"); PInt (Spec.orderCount scenario3);
          PStr (avg_text ++ "K"); PInt (Spec.uniqueCustomerCount scenario3)]
    ∧ Transportation.calculate_kpis scenario3 = Toy.calculate_kpis scenario3
    ∧ Numeral.shows_two_decimals (Spec.totalSales scenario3 / 1000000) total_text
    ∧ (Spec.orderCount scenario3 ≠ 0 →
       Numeral.shows_two_decimals (Spec.avgSalesPerOrder scenario3) avg_text).
Proof. apply (calculate_kpis_statistics scenario3). Defined.

(** C1, as stated, fails for a dataset that a filter has emptied: with no
    order the third element is the text "nanK", which reads as no number
    at all, so it shows no average rounded to two decimals. *)
Lemma calculate_kpis_no_order_shows_no_average :
  ¬ ∃ kpis avg_text q,
      (Toy.filter_data scenario3 "STATUS" ["Cancelled"] ≫= Toy.calculate_kpis)
      = Ok kpis
      ∧ kpis !! 2%nat = Some (PStr (avg_text ++ "K"))
      ∧ Numeral.shows_two_decimals q avg_text.
Proof.
  intros (kpis & avg_text & q & E & Hk & u & Hu & _).
  vm_compute in E. injection E as <-. cbn in Hk. injection Hk as Hk.
  assert (avg_text = "nan") as ->.
  { destruct avg_text as [|a [|b [|c [|d t]]]]; try discriminate Hk.
    - injection Hk as <- <- <-. reflexivity.
    - rewrite !app_String in Hk. injection Hk as _ _ _ Hk.
      by destruct t. }
  discriminate Hu.
Qed.

(** *** The formatted tiles *)

Lemma append_cons (x : ascii) (a b : string) :
  String x a ++ b = String x (a ++ b).
Proof. reflexivity. Qed.

Lemma append_assoc (a b c : string) : (a ++ b) ++ c = a ++ b ++ c.
Proof.
  induction a as [|x a IH]; [done|]. rewrite !append_cons. by f_equal.
Qed.


Lemma zfill_2_digits (m : Z) : 0 ≤ m < 100 → two_digits (zfill 2 m) = true.
Proof.
  intros Hm.
  assert (forallb (λ k, two_digits (zfill 2 k)) (seqZ 0 100) = true) as All
    by (vm_compute; reflexivity).
  rewrite forallb_forall in All. apply All.
  apply list_elem_of_In, elem_of_seqZ. lia.
Qed.

Lemma two_digits_inv (s : string) :
  two_digits s = true →
  ∃ a b, s = String a (String b "")
         ∧ Spec.is_digit a = true ∧ Spec.is_digit b = true.
Proof.
  destruct s as [|a [|b [|c s]]]; try discriminate.
  intros [? ?]%andb_true_iff. by exists a, b.
Qed.

Lemma fixed_two_decimal_places (q : Q) : Spec.two_decimal_places (fixed 2 q).
Proof.
  unfold fixed, decimal_text. set (u := Z.abs (shown_units 2 q)).
  change (10 ^ Z.of_nat 2) with 100.
  destruct (two_digits_inv (zfill 2 (u mod 100))) as (a & b & -> & Da & Db).
  { apply zfill_2_digits, Z.mod_pos_bound. lia. }
  exists ((if Qis_neg q then "-" else "") ++ pretty (u / 100)), a, b.
  split; [|done]. by rewrite append_assoc.
Qed.



(** C10. For every dataset with at least one distinct order number,
    [calculate_kpis] of either dashboard returns a list of four elements of
    mixed type: the first is a str, a numeral with two decimals that reads
    as total sales / 1,000,000 rounded to two decimals, followed by "M";
    the third is a str, a numeral with two decimals that reads as total
    sales / order count / 1,000 rounded to two decimals, followed by "K"; the
    second and the fourth are ints, the counts of distinct order numbers
    and of distinct customer names. *)
Theorem calculate_kpis_mixed_list data :
  0 < Spec.orderCount data →
  ∃ total_text avg_text,
    Toy.calculate_kpis data
    = Ok [PStr (total_text ++ "M"); PInt (Spec.orderCount data);
          PStr (avg_text ++ "K"); PInt (Spec.uniqueCustomerCount data)]
    ∧ Transportation.calculate_kpis data = Toy.calculate_kpis data
    ∧ Numeral.shows_two_decimals (Spec.totalSales data / 1000000) total_text
    ∧ Spec.two_decimal_places total_text
    ∧ Numeral.shows_two_decimals (Spec.avgSalesPerOrder data) avg_text
    ∧ Spec.two_decimal_places avg_text.
Proof.
  intros Hpos.
  exists (fixed 2 (Spec.totalSales data / 1000000)),
         (fixed 2 (Spec.avgSalesPerOrder data)).
  split; [|split; [reflexivity|]].
  - rewrite calculate_kpis_eq.
    rewrite total_text, average_text by lia.
    by rewrite orderCount_nunique, uniqueCustomerCount_nunique.
  - auto using fixed_shows_two_decimals, fixed_two_decimal_places.
Qed.

Lemma calculate_kpis_mixed_list_witness :
  ∃ total_text avg_text,
    Toy.calculate_kpis scenario3
    = Ok [PStr (total_text ++ "M"); PInt (Spec.orderCount scenario3);
          PStr (avg_text ++ "K"); PInt (Spec.uniqueCustomerCount scenario3)]
    ∧ Transportation.calculate_kpis scenario3 = Toy.calculate_kpis scenario3
    ∧ Numeral.shows_two_decimals (Spec.totalSales scenario3 / 1000000) total_text
    ∧ Spec.two_decimal_places total_text
    ∧ Numeral.shows_two_decimals (Spec.avgSalesPerOrder scenario3) avg_text
    ∧ Spec.two_decimal_places avg_text.
Proof.
  apply (calculate_kpis_mixed_list scenario3). vm_compute. reflexivity.
Defined.




(* ===================================================================== *)
(** ** Regression page *)
(* ===================================================================== *)

Section predict_page.
Context `{Predict.Sklearn}.

Lemma page_trained ui df :
  1 < len (Predict.filtered_df ui df) →
  ∃ rest,
    events (Predict.page ui df)
    = Header "Filter Data"
      :: ModelFit ((λ r, (QUANTITYORDERED r, PRICEEACH r)) <$> Predict.filtered_df ui df)
                  (SALES <$> Predict.filtered_df ui df)
      :: rest.
Proof.
  intros Hlt. unfold Predict.page.
  destruct (Z.ltb_spec 1 (len (Predict.filtered_df ui df))); [|lia].
  eexists. reflexivity.
Qed.

Lemma page_not_trained ui df :
  len (Predict.filtered_df ui df) < 2 →
  Predict.page ui df
  = Run [Header "Filter Data"; Warning not_enough_data] (Ok ()).
Proof.
  intros Hlt. unfold Predict.page.
  destruct (Z.ltb_spec 1 (len (Predict.filtered_df ui df))); [lia|].
  reflexivity.
Qed.

(** C4. The page fits a model exactly when the filtered frame has more
    than one row.  With fewer than two rows the run fits no model and
    renders no metric: after the header of the filter sidebar, all it
    renders is the warning that there is not enough data. *)
Theorem page_trains_iff_more_than_one_row ui df :
  ((∃ X y, ModelFit X y ∈ events (Predict.page ui df))
   ↔ 1 < len (Predict.filtered_df ui df))
  ∧ (len (Predict.filtered_df ui df) < 2 →
     Predict.page ui df
     = Run [Header "Filter Data"; Warning not_enough_data] (Ok ())
     ∧ ∀ label value, Metric label value ∉ events (Predict.page ui df)).
Proof.
  split.
  - split.
    + intros (X & y & Hin).
      destruct (Z.lt_ge_cases 1 (len (Predict.filtered_df ui df))) as [|Hge];
        [done|].
      rewrite page_not_trained in Hin by lia. simpl in Hin.
      apply elem_of_cons in Hin as [Hin|Hin]; [discriminate Hin|].
      apply list_elem_of_singleton in Hin. discriminate Hin.
    + intros Hlt. destruct (page_trained ui df Hlt) as [rest ->].
      eexists _, _. apply list_elem_of_further, list_elem_of_here.
  - intros Hlt. rewrite page_not_trained by done. split; [done|].
    intros label value Hin. simpl in Hin.
    apply elem_of_cons in Hin as [Hin|Hin]; [discriminate Hin|].
    apply list_elem_of_singleton in Hin. discriminate Hin.
Qed.
End predict_page.

Lemma page_trains_iff_more_than_one_row_witness :
  ((∃ X y, ModelFit X y ∈ events (@Predict.page mean_forest no_widget_touched scenario3))
   ↔ 1 < len (Predict.filtered_df no_widget_touched scenario3))
  ∧ (len (Predict.filtered_df no_widget_touched scenario3) < 2 →
     @Predict.page mean_forest no_widget_touched scenario3
     = Run [Header "Filter Data"; Warning not_enough_data] (Ok ())
     ∧ ∀ label value,
         Metric label value
         ∉ events (@Predict.page mean_forest no_widget_touched scenario3)).
Proof.
  apply (@page_trains_iff_more_than_one_row mean_forest no_widget_touched scenario3).
Defined.

(** *** Adjusted R² *)

(** C6, as the code has it. The adjusted R² is computed without a guard,
    as 1 - (1 - r2) * (n - 1) / (n - k - 1): for a finite r2 and a sample
    size n other than k + 1 the result is that number, no exception and no
    "undefined".  With the two features and two rows it is 2 - r2. *)
Theorem adjusted_r2_unguarded (r2 : scalar) (q : Q) (n k : Z) :
  to_float r2 = Fin q → n - k - 1 ≠ 0 →
  ∃ x a,
    Predict.adjusted_r2 r2 n k = Ok x
    ∧ to_float x = Fin a
    ∧ (a == 1 - (1 - q) * inject_Z (n - 1) / inject_Z (n - k - 1))%Q
    ∧ (n = 2 → k = 2 → (a == 2 - q)%Q).
Proof.
  intros Hq Hden. unfold Predict.adjusted_r2.
  set (v := ((1 + - q) * inject_Z (n - 1) / inject_Z (n - k - 1))%Q).
  assert (∃ x, truediv (mul (sub (PyInt 1) r2) (sub (PyInt n) (PyInt 1)))
                       (sub (sub (PyInt n) (PyInt k)) (PyInt 1)) = Ok x
               ∧ (x = PyFloat (Fin v) ∨ x = NpFloat (Fin v)))
    as (x & -> & Hx).
  { destruct r2 as [z|x|x]; simpl in Hq; subst; unfold truediv; simpl;
      unfold Qis_zero; simpl; destruct (Z.eqb_spec (n - k - 1) 0); try done.
    - injection Hq as <-. eexists. split; [reflexivity|]. left.
      do 2 f_equal. unfold v, Qdiv, Qmult, Qplus, Qopp, inject_Z. simpl.
      do 2 f_equal. lia.
    - eexists. split; [reflexivity|]. by left.
    - eexists. split; [reflexivity|]. by right. }
  exists (sub (PyInt 1) x), (1 + - v)%Q.
  split; [reflexivity|]. split; [by destruct Hx as [-> | ->]|].
  split; [reflexivity|].
  intros -> ->. unfold v. destruct q as [qn qd].
  unfold Qeq, Qdiv, Qmult, Qplus, Qminus, Qopp, Qinv. simpl.
  rewrite !Pos2Z.inj_mul. lia.
Qed.

Lemma adjusted_r2_unguarded_witness :
  ∃ x a,
    Predict.adjusted_r2 (PyFloat (Fin (1 # 2))) 2 2 = Ok x
    ∧ to_float x = Fin a
    ∧ (a == 1 - (1 - (1 # 2)) * inject_Z (2 - 1) / inject_Z (2 - 2 - 1))%Q
    ∧ (2 = 2 → 2 = 2 → (a == 2 - (1 # 2))%Q).
Proof.
  apply (adjusted_r2_unguarded (PyFloat (Fin (1 # 2))) (1 # 2) 2 2).
  - reflexivity.
  - lia.
Defined.

(** With two filtered rows the page shows that number in its metric. *)
Lemma page_two_rows_shows_adjusted_r2 :
  len (Predict.filtered_df no_widget_touched two_rows) = 2
  ∧ Metric "Adjusted R-squared" (PStr "1.5000")
    ∈ events (@Predict.page mean_forest no_widget_touched two_rows).
Proof.
  split; [reflexivity|]. rewrite page_two_rows. simpl.
  repeat (first [apply list_elem_of_here | apply list_elem_of_further]).
Qed.

(** C6, as stated, fails for a model trained on two rows: the adjusted R²
    comes out as a number (1.5 for an R² of 0.5), not as undefined. *)
Lemma adjusted_r2_two_rows_is_a_number :
  ¬ Spec.not_applicable (Predict.adjusted_r2 (PyFloat (Fin (1 # 2))) 2 2).
Proof.
  intros (x & E & Hx). vm_compute in E. injection E as <-.
  by apply (Hx (3 # 2)).
Qed.

(* ===================================================================== *)
(** ** The dashboards' pipeline and the date range *)
(* ===================================================================== *)

(** What the two date pickers hold has no effect on a run of the toy-store
    dashboard. *)
Lemma toy_main_independent_of_dates (ui ui' : Toy.widgets) (data : DataFrame) :
  Toy.product_lines_entered ui = Toy.product_lines_entered ui' →
  Toy.countries_entered ui = Toy.countries_entered ui' →
  Toy.statuses_entered ui = Toy.statuses_entered ui' →
  Toy.search_clicked ui = Toy.search_clicked ui' →
  Toy.combine_entered ui = Toy.combine_entered ui' →
  Toy.feedback_entered ui = Toy.feedback_entered ui' →
  Toy.submit_clicked ui = Toy.submit_clicked ui' →
  Toy.main ui data = Toy.main ui' data.
Proof.
  destruct ui, ui'. simpl. intros -> -> -> -> -> -> ->. reflexivity.
Qed.

Lemma transportation_main_independent_of_dates
    (ui ui' : Transportation.widgets) (data : DataFrame) :
  Transportation.product_lines_entered ui = Transportation.product_lines_entered ui' →
  Transportation.countries_entered ui = Transportation.countries_entered ui' →
  Transportation.statuses_entered ui = Transportation.statuses_entered ui' →
  Transportation.combine_entered ui = Transportation.combine_entered ui' →
  Transportation.main ui data = Transportation.main ui' data.
Proof.
  destruct ui, ui'. simpl. intros -> -> -> ->. reflexivity.
Qed.

(** C7, at a failing input. The date pickers are set to the year 2004 and a
    search is run on the three-row dataset, two rows of which are dated
    2003-02-24: both dashboards chart and export all three rows. *)
Theorem main_ignores_date_range :
  Timestamp_leb (mkTimestamp 2004 1 1) d_2003_02_24 = false
  ∧ ORDERDATE <$> scenario3 = [d_2003_02_24; d_2003_02_24; d_2004_11_05]
  ∧ Charts scenario3 true ∈ events (Toy.main dates_2004 scenario3)
  ∧ DownloadButton (to_csv scenario3) ∈ events (Toy.main dates_2004 scenario3)
  ∧ Charts scenario3 true
    ∈ events (Transportation.main transportation_dates_2004 scenario3)
  ∧ DownloadButton (to_csv scenario3)
    ∈ events (Transportation.main transportation_dates_2004 scenario3).
Proof.
  split; [reflexivity|]. split; [reflexivity|].
  rewrite main_dates_2004, transportation_main_dates_2004.
  simpl. repeat split;
    repeat (first [apply list_elem_of_here | apply list_elem_of_further]).
Qed.

(* ===================================================================== *)
(** ** KPI totals over a partition *)
(* ===================================================================== *)

Lemma categorical_schema column g :
  assoc column Spec.categorical = Some g →
  assoc column schema = Some (λ r, VStr (g r)).
Proof.
  intros Hg. apply assoc_Some_elem in Hg. unfold Spec.categorical in Hg.
  repeat (apply elem_of_cons in Hg as [[= -> ->]|Hg]; [reflexivity|]).
  by apply elem_of_nil in Hg.
Qed.

Lemma mapM_Ok {A B} (f : A → result B) (h : A → B) (l : list A) :
  (∀ x, f x = Ok (h x)) → mapM f l = Ok (h <$> l).
Proof.
  intros Hf. induction l as [|x l IH]; [done|].
  simpl. rewrite Hf. simpl. rewrite IH. reflexivity.
Qed.

Lemma omap_str (g : SalesRecord → string) (data : DataFrame) :
  omap (λ c, match c with VStr v => Some v | _ => None end)
       ((λ r, VStr (g r)) <$> data)
  = g <$> data.
Proof. induction data as [|r data IH]; [done|]. csimpl. by rewrite IH. Qed.

Lemma filter_data_block column g data v :
  assoc column Spec.categorical = Some g →
  Toy.filter_data data column [v] = Ok (Spec.block g data v).
Proof.
  intros Hg. apply categorical_schema in Hg.
  unfold Toy.filter_data, getitem. rewrite Hg. simpl.
  unfold mret, result_ret. f_equal. apply getitem_mask_isin.
Qed.

Lemma partition_by_blocks column g data :
  assoc column Spec.categorical = Some g →
  Spec.partition_by column data = Ok (Spec.block g data <$> unique (g <$> data)).
Proof.
  intros Hg. unfold Spec.partition_by, getitem.
  rewrite (categorical_schema _ _ Hg). unfold mbind, result_bind.
  rewrite omap_str.
  apply mapM_Ok. intros v. by apply filter_data_block.
Qed.

Lemma sumZ_cons (x : Z) (l : list Z) : Spec.sumZ (x :: l) = x + Spec.sumZ l.
Proof. reflexivity. Qed.

Section additive.
Context (g : SalesRecord → string).

Lemma among_all vs data : (∀ r, r ∈ data → g r ∈ vs) → Spec.among g vs data = data.
Proof.
  induction data as [|r data IH]; intros Hall; [done|]. simpl.
  rewrite bool_decide_true by (apply Hall, list_elem_of_here).
  f_equal. apply IH. intros r' Hr'. by apply Hall, list_elem_of_further.
Qed.

Context (h : SalesRecord → Z).

Lemma sumZ_among_cons v vs data :
  v ∉ vs →
  Spec.sumZ (h <$> Spec.among g (v :: vs) data)
  = Spec.sumZ (h <$> Spec.block g data v) + Spec.sumZ (h <$> Spec.among g vs data).
Proof.
  intros Hv. unfold Spec.among, Spec.block.
  induction data as [|r data IH]; [done|]. cbn [List.filter].
  destruct (decide (g r = v)) as [->|Hne].
  - rewrite !bool_decide_true by set_solver.
    rewrite bool_decide_false by done.
    rewrite !fmap_cons, !sumZ_cons, IH. lia.
  - destruct (decide (g r ∈ vs)).
    + rewrite (bool_decide_true (g r ∈ v :: vs)) by set_solver.
      rewrite (bool_decide_false (g r ∈ [v])) by set_solver.
      rewrite (bool_decide_true (g r ∈ vs)) by done.
      rewrite !fmap_cons, !sumZ_cons, IH. lia.
    + rewrite (bool_decide_false (g r ∈ v :: vs)) by set_solver.
      rewrite (bool_decide_false (g r ∈ [v])) by set_solver.
      rewrite (bool_decide_false (g r ∈ vs)) by done. done.
Qed.

Lemma sumZ_blocks vs data :
  NoDup vs →
  Spec.sumZ ((λ b, Spec.sumZ (h <$> b)) <$> (Spec.block g data <$> vs))
  = Spec.sumZ (h <$> Spec.among g vs data).
Proof.
  induction 1 as [|v vs Hv Hnd IH].
  - unfold Spec.among. induction data as [|r data IHd]; [done|].
    cbn [List.filter]. by rewrite bool_decide_false by set_solver.
  - rewrite !fmap_cons, sumZ_cons, IH. symmetry. by apply sumZ_among_cons.
Qed.

Lemma sumZ_partition data :
  Spec.sumZ ((λ b, Spec.sumZ (h <$> b)) <$> (Spec.block g data <$> unique (g <$> data)))
  = Spec.sumZ (h <$> data).
Proof.
  rewrite sumZ_blocks by apply unique_NoDup.
  rewrite among_all; [done|].
  intros r Hr. apply unique_elem. by apply list_elem_of_fmap_2.
Qed.
End additive.

Section subadditive.
Context (g : SalesRecord → string).
Context `{Countable K} (key : SalesRecord → K).

Lemma elem_of_among vs data r :
  r ∈ Spec.among g vs data ↔ r ∈ data ∧ g r ∈ vs.
Proof.
  unfold Spec.among.
  rewrite (list_elem_of_In (List.filter _ data) r), filter_In.
  by rewrite bool_decide_eq_true, (list_elem_of_In data r).
Qed.

Lemma size_union_le (X Y : gset K) : (size (X ∪ Y) ≤ size X + size Y)%nat.
Proof.
  rewrite size_union_alt.
  assert (size (Y ∖ X) ≤ size Y)%nat by (apply subseteq_size; set_solver).
  lia.
Qed.

Lemma distinct_among_cons v vs data :
  (list_to_set (key <$> Spec.among g (v :: vs) data) : gset K)
  ⊆ list_to_set (key <$> Spec.block g data v)
    ∪ list_to_set (key <$> Spec.among g vs data).
Proof.
  intros x. rewrite elem_of_union, !elem_of_list_to_set, !list_elem_of_fmap.
  intros (r & -> & Hr). apply elem_of_among in Hr as [Hr Hg].
  apply elem_of_cons in Hg as [Hg|Hg].
  - left. exists r. split; [done|]. apply elem_of_among.
    split; [done|]. rewrite Hg. apply list_elem_of_here.
  - right. exists r. split; [done|]. by apply elem_of_among.
Qed.

Lemma nunique_blocks vs data :
  nunique (key <$> Spec.among g vs data)
  ≤ Spec.sumZ ((λ b, nunique (key <$> b)) <$> (Spec.block g data <$> vs)).
Proof.
  induction vs as [|v vs IH].
  - replace (Spec.among g [] data) with (@nil SalesRecord); [done|].
    unfold Spec.among. induction data as [|r data IHd]; [done|].
    cbn [List.filter]. by rewrite bool_decide_false by set_solver.
  - rewrite !fmap_cons, sumZ_cons.
    rewrite !nunique_size in *.
    pose proof (subseteq_size _ _ (distinct_among_cons v vs data)) as S1.
    pose proof (size_union_le
                  (list_to_set (key <$> Spec.block g data v))
                  (list_to_set (key <$> Spec.among g vs data))) as S2.
    lia.
Qed.

Lemma nunique_partition data :
  nunique (key <$> data)
  ≤ Spec.sumZ ((λ b, nunique (key <$> b))
               <$> (Spec.block g data <$> unique (g <$> data))).
Proof.
  rewrite <- (among_all g (unique (g <$> data)) data) at 1.
  - apply nunique_blocks.
  - intros r Hr. apply unique_elem. by apply list_elem_of_fmap_2.
Qed.
End subadditive.

Lemma sum_hundredths_sumZ (s : list Z) : sum_hundredths s = Spec.sumZ s.
Proof. apply sum_hundredths_foldr. Qed.

Lemma len_sumZ (data : DataFrame) : len data = Spec.sumZ ((λ _, 1) <$> data).
Proof.
  unfold len. induction data as [|r data IH]; [done|].
  rewrite fmap_cons, sumZ_cons, <- IH. simpl length. lia.
Qed.

(** C8, as the code has it. For every dataset and every categorical column,
    over the exhaustive partition of the dataset by the values of the
    column: the sum of the sales amounts and the number of rows of the
    whole are the sums of those of the blocks; the two distinct counts of
    the KPIs, order count and unique customers, are not additive, each is
    at most the sum of the counts of the blocks. *)
Theorem kpi_totals_over_partition data column g :
  assoc column Spec.categorical = Some g →
  ∃ blocks,
    Spec.partition_by column data = Ok blocks
    ∧ sum_hundredths (SALES <$> data)
      = Spec.sumZ ((λ b, sum_hundredths (SALES <$> b)) <$> blocks)
    ∧ len data = Spec.sumZ (len <$> blocks)
    ∧ Spec.orderCount data ≤ Spec.sumZ (Spec.orderCount <$> blocks)
    ∧ Spec.uniqueCustomerCount data
      ≤ Spec.sumZ (Spec.uniqueCustomerCount <$> blocks).
Proof.
  intros Hg. eexists. split; [by apply partition_by_blocks|].
  split; [|split; [|split]].
  - rewrite sum_hundredths_sumZ, <- (sumZ_partition g SALES data).
    f_equal. apply list_fmap_ext. intros _ b _.
    by rewrite sum_hundredths_sumZ.
  - rewrite len_sumZ, <- (sumZ_partition g (λ _, 1) data).
    f_equal. apply list_fmap_ext. intros _ b _. by rewrite len_sumZ.
  - rewrite orderCount_nunique.
    etrans; [apply (nunique_partition g ORDERNUMBER)|].
    apply Z.eq_le_incl. f_equal. apply list_fmap_ext. intros _ b _.
    by rewrite orderCount_nunique.
  - rewrite uniqueCustomerCount_nunique.
    etrans; [apply (nunique_partition g CUSTOMERNAME)|].
    apply Z.eq_le_incl. f_equal. apply list_fmap_ext. intros _ b _.
    by rewrite uniqueCustomerCount_nunique.
Qed.

Lemma kpi_totals_over_partition_witness :
  ∃ blocks,
    Spec.partition_by "PRODUCTLINE" scenario3 = Ok blocks
    ∧ sum_hundredths (SALES <$> scenario3)
      = Spec.sumZ ((λ b, sum_hundredths (SALES <$> b)) <$> blocks)
    ∧ len scenario3 = Spec.sumZ (len <$> blocks)
    ∧ Spec.orderCount scenario3 ≤ Spec.sumZ (Spec.orderCount <$> blocks)
    ∧ Spec.uniqueCustomerCount scenario3
      ≤ Spec.sumZ (Spec.uniqueCustomerCount <$> blocks).
Proof.
  apply (kpi_totals_over_partition scenario3 "PRODUCTLINE" PRODUCTLINE).
  reflexivity.
Defined.

(** C8, as stated, fails for the order count: in the three-row dataset
    order 10107 has a line in each of two product lines, so the blocks of
    the partition by product line count it twice. *)
Lemma order_count_not_additive :
  ¬ ∀ blocks,
      Spec.partition_by "PRODUCTLINE" scenario3 = Ok blocks →
      Spec.orderCount scenario3 = Spec.sumZ (Spec.orderCount <$> blocks).
Proof.
  intros Hadd.
  specialize (Hadd _ (partition_by_blocks "PRODUCTLINE" PRODUCTLINE scenario3 eq_refl)).
  vm_compute in Hadd. discriminate Hadd.
Qed.

(* ===================================================================== *)
(** ** Export *)
(* ===================================================================== *)

Lemma special_false c :
  special c = false →
  Ascii.eqb c comma = false ∧ Ascii.eqb c dquote = false
  ∧ Ascii.eqb c LF = false.
Proof.
  unfold special. intros E.
  repeat (apply orb_false_iff in E as [E ?]). by repeat split.
Qed.

(** One step of the tokenizer on a known character: unfold the step and
    decide the comparisons between the four special characters. *)
Ltac tokenize_step :=
  cbn [app tokenize];
  repeat first
    [ rewrite Ascii.eqb_refl
    | progress change (Ascii.eqb dquote LF) with false
    | progress change (Ascii.eqb dquote CR) with false
    | progress change (Ascii.eqb comma dquote) with false
    | progress change (Ascii.eqb comma LF) with false
    | progress change (Ascii.eqb comma CR) with false
    | progress change (Ascii.eqb LF dquote) with false ];
  cbv iota.

Lemma without_CR_cons c f :
  without_CR (c :: f) = true → Ascii.eqb c CR = false ∧ without_CR f = true.
Proof.
  unfold without_CR. cbn [forallb]. intros [Hc Hf]%andb_true_iff.
  by apply negb_true_iff in Hc.
Qed.

(** The same on a character known to be neither special nor a carriage
    return. *)
Ltac tokenize_plain_step Hc Hr :=
  let E1 := fresh in let E2 := fresh in let E3 := fresh in
  destruct (special_false _ Hc) as (E1 & E2 & E3);
  cbn [app tokenize]; rewrite ?E1, ?E2, ?E3, ?Hr.

Section tokenizer_facts.
Implicit Types (f acc rest : list ascii) (record : list string).

(** Inside an unquoted field, plain characters accumulate. *)
Lemma tokenize_plain f acc record rest :
  needs_quoting f = false → without_CR f = true →
  tokenize InField acc record (f ++ rest)
  = tokenize InField (rev f ++ acc) record rest.
Proof.
  revert acc. induction f as [|c f IH]; intros acc Hf Hcr; [done|].
  simpl in Hf. apply orb_false_iff in Hf as [Hc Hf].
  apply without_CR_cons in Hcr as [Hr Hcr].
  tokenize_plain_step Hc Hr. rewrite IH by done.
  cbn [rev]. by rewrite <- app_assoc.
Qed.

(** Inside a quoted field, the doubled quotes of the writer read back as
    single ones, up to the closing quote. *)
Lemma tokenize_quoted f acc record rest :
  tokenize InQuoted acc record (double_quotes f ++ dquote :: rest)
  = tokenize QuoteInQuoted (rev f ++ acc) record rest.
Proof.
  revert acc. induction f as [|c f IH]; intros acc.
  - cbn [double_quotes]. by tokenize_step.
  - cbn [double_quotes rev]. rewrite <- app_assoc.
    destruct (Ascii.eqb c dquote) eqn:E.
    + apply Ascii.eqb_eq in E as ->. tokenize_step. by rewrite IH.
    + cbn [app tokenize]. by rewrite E, IH.
Qed.

Lemma end_field_rev f record :
  end_field (rev f ++ []) record = string_of_list_ascii f :: record.
Proof. unfold end_field. by rewrite app_nil_r, rev_involutive. Qed.

Lemma end_field_rev_cons c f record :
  end_field (rev f ++ [c]) record = string_of_list_ascii (c :: f) :: record.
Proof.
  unfold end_field. by rewrite rev_app_distr, rev_involutive.
Qed.

(** A written field followed by a comma, read from the start of a field:
    the field is back and the tokenizer stands at the next field. *)
Lemma tokenize_field_comma f record rest :
  without_CR f = true →
  tokenize StartField [] record (csv_field f ++ comma :: rest)
  = tokenize StartField [] (string_of_list_ascii f :: record) rest.
Proof.
  intros Hcr. unfold csv_field. destruct (needs_quoting f) eqn:Q.
  - tokenize_step. rewrite <- app_assoc. cbn [app].
    rewrite tokenize_quoted. tokenize_step. by rewrite end_field_rev.
  - destruct f as [|c f]; [by tokenize_step|].
    simpl in Q. apply orb_false_iff in Q as [Hc Q].
    apply without_CR_cons in Hcr as [Hr Hcr].
    tokenize_plain_step Hc Hr. rewrite tokenize_plain by done.
    tokenize_step. by rewrite end_field_rev_cons.
Qed.

(** The same at the start of a record. *)
Lemma tokenize_first_field_comma f rest :
  without_CR f = true →
  tokenize StartRecord [] [] (csv_field f ++ comma :: rest)
  = tokenize StartField [] [string_of_list_ascii f] rest.
Proof.
  intros Hcr. rewrite <- tokenize_field_comma by done. unfold csv_field.
  destruct (needs_quoting f) eqn:Q; [reflexivity|].
  destruct f as [|c f]; [reflexivity|].
  simpl in Q. apply orb_false_iff in Q as [Hc Q].
  apply without_CR_cons in Hcr as [Hr Hcr].
  by tokenize_plain_step Hc Hr.
Qed.

(** A written field followed by the line terminator: the record is
    complete. *)
Lemma tokenize_field_LF f record rest :
  without_CR f = true →
  tokenize StartField [] record (csv_field f ++ LF :: rest)
  = rev (string_of_list_ascii f :: record) :: tokenize StartRecord [] [] rest.
Proof.
  intros Hcr. unfold csv_field. destruct (needs_quoting f) eqn:Q.
  - tokenize_step. rewrite <- app_assoc. cbn [app].
    rewrite tokenize_quoted. tokenize_step. by rewrite end_field_rev.
  - destruct f as [|c f]; [by tokenize_step|].
    simpl in Q. apply orb_false_iff in Q as [Hc Q].
    apply without_CR_cons in Hcr as [Hr Hcr].
    tokenize_plain_step Hc Hr. rewrite tokenize_plain by done.
    tokenize_step. by rewrite end_field_rev_cons.
Qed.
End tokenizer_facts.

Lemma csv_join_cons (f f2 : string) (fs : list string) :
  csv_join ((λ f, csv_field (list_ascii_of_string f)) <$> f :: f2 :: fs)
  = (csv_field (list_ascii_of_string f)
     ++ comma :: csv_join ((λ f, csv_field (list_ascii_of_string f)) <$> f2 :: fs))%list.
Proof. reflexivity. Qed.

Section records.
Implicit Types (fs : list string) (rest : list ascii).

Lemma tokenize_fields fs record rest :
  fs ≠ [] → Forall (λ f, no_CR f = true) fs →
  tokenize StartField [] record
    (csv_join ((λ f, csv_field (list_ascii_of_string f)) <$> fs) ++ LF :: rest)
  = (rev record ++ fs)%list :: tokenize StartRecord [] [] rest.
Proof.
  revert record. induction fs as [|f fs IH]; intros record Hne Hcr; [done|].
  apply Forall_cons in Hcr as [Hf Hcr].
  destruct fs as [|f2 fs].
  - cbn [fmap list_fmap csv_join]. rewrite tokenize_field_LF by exact Hf.
    by rewrite string_of_list_ascii_of_string.
  - rewrite csv_join_cons.
    rewrite <- app_assoc. cbn [app]. rewrite tokenize_field_comma by exact Hf.
    rewrite string_of_list_ascii_of_string, IH by done.
    cbn [rev]. by rewrite <- app_assoc.
Qed.

Lemma tokenize_row fs rest :
  (2 ≤ length fs)%nat → Forall (λ f, no_CR f = true) fs →
  tokenize StartRecord [] [] (csv_row fs ++ rest)
  = fs :: tokenize StartRecord [] [] rest.
Proof.
  intros Hlen Hcr. destruct fs as [|f [|f2 fs]]; simpl in Hlen; try lia.
  apply Forall_cons in Hcr as [Hf Hcr].
  unfold csv_row. rewrite csv_join_cons.
  rewrite <- !app_assoc. cbn [app].
  rewrite tokenize_first_field_comma by exact Hf.
  rewrite string_of_list_ascii_of_string. by rewrite tokenize_fields.
Qed.

Lemma tokenize_rows (rows : list (list string)) :
  Forall (λ fs, (2 ≤ length fs)%nat ∧ Forall (λ f, no_CR f = true) fs) rows →
  tokenize StartRecord [] [] (concat (csv_row <$> rows)) = rows.
Proof.
  induction 1 as [|fs rows [Hfs Hcr] Hrows IH]; [done|].
  rewrite fmap_cons. cbn [concat]. rewrite tokenize_row by done.
  by rewrite IH.
Qed.
End records.

Lemma string_of_list_ascii_app (a b : list ascii) :
  string_of_list_ascii (a ++ b)
  = (string_of_list_ascii a ++ string_of_list_ascii b)%string.
Proof.
  induction a as [|x a IH]; [done|].
  cbn [app string_of_list_ascii]. rewrite append_cons. by f_equal.
Qed.

(** *** The cells read back by type *)

Lemma integer_pretty (z : Z) : Numeral.integer (pretty z) = Some z.
Proof.
  destruct z as [|p|p]; [done| |].
  - destruct (pretty_reads (Z.pos p) ltac:(lia)) as [Hall Hnat].
    unfold Numeral.integer.
    rewrite <- (app_empty_r (pretty (Z.pos p))).
    rewrite (signed_digits _ _ _ Hall Hnat), app_empty_r, Hnat. reflexivity.
  - destruct (pretty_reads (Z.pos p) ltac:(lia)) as [Hall Hnat].
    change (pretty (Z.neg p)) with (String "-" (pretty (Z.pos p))).
    unfold Numeral.integer. cbn [Numeral.signed].
    change (Ascii.eqb "-" "-") with true. cbv iota. by rewrite Hnat.
Qed.

Lemma amount_parts (neg : bool) (i f : string) (n m : Z) :
  all_digits i = true → Numeral.natural i = Some n →
  Numeral.natural f = Some m →
  Numeral.amount ((if neg then "-" else "") ++ i ++ "." ++ f)
  = match String.length f with
    | 1%nat => Some (Numeral.with_sign neg (100 * n + 10 * m))
    | 2%nat => Some (Numeral.with_sign neg (100 * n + m))
    | _ => None
    end.
Proof.
  intros Hall Hi Hf.
  assert (Numeral.split_at "." (i ++ String "." f) = Some (i, f)) as Hsplit
    by (by apply split_at_digits).
  destruct neg.
  - change ("-" ++ i ++ "." ++ f)%string with (String "-" (i ++ String "." f)).
    unfold Numeral.amount. cbn [Numeral.signed].
    change (Ascii.eqb "-" "-") with true. cbv iota.
    by rewrite Hsplit, Hi, Hf.
  - change ("" ++ i ++ "." ++ f)%string with (i ++ String "." f)%string.
    unfold Numeral.amount. rewrite (signed_digits _ _ _ Hall Hi).
    by rewrite Hsplit, Hi, Hf.
Qed.

Lemma pretty_digit_length (d : Z) :
  0 ≤ d < 10 → String.length (pretty d) = 1%nat.
Proof.
  intros Hd.
  assert (forallb (λ k, Nat.eqb (String.length (pretty k)) 1) (seqZ 0 10)
          = true) as Hall by (vm_compute; reflexivity).
  rewrite forallb_forall in Hall. apply Nat.eqb_eq, Hall.
  apply list_elem_of_In, elem_of_seqZ. lia.
Qed.

(** An amount written by [to_csv] reads as that amount. *)
Lemma amount_float_text (h : Z) : Numeral.amount (float_text h) = Some h.
Proof.
  unfold float_text. set (a := Z.abs h).
  assert (0 ≤ a / 100) as Hi by (apply Z.div_pos; lia).
  assert (0 ≤ a `mod` 100 < 100) as Hf by (apply Z.mod_pos_bound; lia).
  pose proof (Z.div_mod a 100 ltac:(lia)) as Ha.
  destruct (pretty_reads _ Hi) as [Hall Hnat].
  destruct (Z.eqb_spec ((a `mod` 100) `mod` 10) 0) as [Hz|Hz].
  - assert (0 ≤ (a `mod` 100) / 10 < 10) as Hd
      by (split; [apply Z.div_pos; lia|apply Z.div_lt_upper_bound; lia]).
    destruct (pretty_reads _ (proj1 Hd)) as [_ Hfrac].
    rewrite (amount_parts _ _ _ _ _ Hall Hnat Hfrac).
    rewrite (pretty_digit_length _ Hd). f_equal.
    pose proof (Z.div_mod (a `mod` 100) 10 ltac:(lia)) as Hm.
    unfold Numeral.with_sign. destruct (Z.ltb_spec h 0); lia.
  - destruct (zfill_reads 2 _ (proj1 Hf)) as [_ Hfrac].
    rewrite (amount_parts _ _ _ _ _ Hall Hnat Hfrac).
    rewrite (zfill_2_length _ Hf). f_equal.
    unfold Numeral.with_sign. destruct (Z.ltb_spec h 0); lia.
Qed.

(** A date written by [to_csv] reads as that date. *)
Lemma date_date_text (t : Timestamp) :
  0 ≤ year t → 0 ≤ month t → 0 ≤ day t →
  Numeral.date (date_text t) = Some t.
Proof.
  intros Hy Hm Hd. destruct t as [y m d]. simpl in *.
  destruct (zfill_reads 4 y Hy) as [Ay Ny].
  destruct (zfill_reads 2 m Hm) as [Am Nm].
  destruct (zfill_reads 2 d Hd) as [Ad Nd].
  unfold date_text, Numeral.date. cbn [year month day].
  change (zfill 4 y ++ "-" ++ zfill 2 m ++ "-" ++ zfill 2 d)%string
    with (zfill 4 y ++ String "-" (zfill 2 m ++ String "-" (zfill 2 d)))%string.
  rewrite split_at_digits by done. rewrite split_at_digits by done.
  by rewrite Ny, Nm, Nd.
Qed.

Lemma text_plain (s : string) : plain_text s → Numeral.text s = Some s.
Proof.
  intros [_ Hna]. unfold Numeral.text. by rewrite bool_decide_eq_false_2.
Qed.

Lemma no_CR_app (a b : string) : no_CR (a ++ b) = no_CR a && no_CR b.
Proof.
  unfold no_CR, without_CR. induction a as [|c a IH]; [done|].
  rewrite app_String. cbn [list_ascii_of_string forallb].
  by rewrite IH, andb_assoc.
Qed.

Lemma no_CR_digits (s : string) : all_digits s = true → no_CR s = true.
Proof.
  unfold no_CR, without_CR. induction s as [|c s IH]; [done|].
  cbn [all_digits list_ascii_of_string forallb].
  intros [Hc Hs]%andb_true_iff. rewrite (IH Hs), andb_true_r.
  apply bool_decide_eq_true in Hc.
  destruct (Ascii.eqb_spec c CR) as [->|_]; [by destruct Hc|done].
Qed.

Lemma no_CR_pretty (z : Z) : no_CR (pretty z) = true.
Proof.
  destruct z as [|p|p]; [done| |].
  - apply no_CR_digits, (pretty_reads (Z.pos p)). lia.
  - change (pretty (Z.neg p)) with ("-" ++ pretty (Z.pos p))%string.
    rewrite no_CR_app. apply andb_true_iff. split; [done|].
    apply no_CR_digits, (pretty_reads (Z.pos p)). lia.
Qed.

Lemma no_CR_float_text (h : Z) : no_CR (float_text h) = true.
Proof.
  unfold float_text. set (a := Z.abs h).
  assert (0 ≤ a / 100) as Hi by (apply Z.div_pos; lia).
  assert (0 ≤ a `mod` 100 < 100) as Hf by (apply Z.mod_pos_bound; lia).
  rewrite !no_CR_app, (no_CR_digits _ (proj1 (pretty_reads _ Hi))).
  assert (no_CR (if (a `mod` 100) `mod` 10 =? 0
                 then pretty ((a `mod` 100) `div` 10)
                 else zfill 2 (a `mod` 100)) = true) as ->.
  { destruct (_ =? 0).
    - apply no_CR_pretty.
    - apply no_CR_digits, zfill_reads, Hf. }
  by destruct (h <? 0).
Qed.

Lemma no_CR_date_text (t : Timestamp) :
  0 ≤ year t → 0 ≤ month t → 0 ≤ day t → no_CR (date_text t) = true.
Proof.
  intros Hy Hm Hd. unfold date_text. rewrite !no_CR_app.
  rewrite (no_CR_digits (zfill 4 (year t))) by (by apply zfill_reads).
  rewrite (no_CR_digits (zfill 2 (month t))) by (by apply zfill_reads).
  rewrite (no_CR_digits (zfill 2 (day t))) by (by apply zfill_reads).
  reflexivity.
Qed.

(** The record written for a row reads back, cell by cell, as that row. *)
Lemma row_text_of (r : SalesRecord) :
  exportable r →
  Forall (λ f, no_CR f = true) (text_of r)
  ∧ Numeral.row (text_of r) = Some r.
Proof.
  intros (_ & _ & Hy & Hm & Hd & Hpl & Hc & Hs & Hcn & Hpc).
  destruct r as [on q p s t pl c st cn pc qtr ln]. cbn [ORDERDATE
    PRODUCTLINE COUNTRY STATUS CUSTOMERNAME PRODUCTCODE] in *.
  change (text_of (mkRow on q p s t pl c st cn pc qtr ln))
    with [pretty on; pretty q; float_text p; float_text s; date_text t;
          pl; c; st; cn; pc; pretty qtr; pretty ln].
  split.
  - repeat (apply Forall_cons; split);
      auto using no_CR_pretty, no_CR_float_text;
      try (apply no_CR_date_text; lia);
      try (apply no_CR_date_text; lia);
      first [apply Hpl | apply Hc | apply Hs | apply Hcn | apply Hpc
            | apply Forall_nil].
  - unfold Numeral.row.
    rewrite !integer_pretty, !amount_float_text, date_date_text by lia.
    by rewrite !text_plain.
Qed.

Lemma columns_no_CR :
  (2 ≤ length columns)%nat ∧ Forall (λ f, no_CR f = true) columns.
Proof. split; [simpl; lia|]. by repeat constructor. Qed.

Lemma scenario3_exportable : Forall exportable scenario3.
Proof.
  repeat constructor; simpl; try lia;
    intros Hin; repeat (apply elem_of_cons in Hin as [Hin|Hin];
                        [discriminate Hin|]);
    by apply elem_of_nil in Hin.
Qed.

(** Records as long as the header are returned as they are. *)
Lemma read_back_same_width (header : list string) (records : list (list string)) :
  Forall (λ r, length r = length header) records →
  (let leading :=
     match records with
     | first :: _ => (length first - length header)%nat
     | [] => 0%nat
     end in
   let width := (length header + leading)%nat in
   if forallb (λ r, Nat.leb (length r) width) records
   then Ok (header, (λ r, drop leading (pad width r)) <$> records)
   else Raise ParserError)
  = Ok (header, records).
Proof.
  intros Hlen.
  assert (match records with
          | first :: _ => (length first - length header)%nat
          | [] => 0%nat
          end = 0%nat) as ->.
  { destruct Hlen as [|r records Hr _]; [done|]. lia. }
  cbv zeta. rewrite Nat.add_0_r.
  assert (forallb (λ r, Nat.leb (length r) (length header)) records = true)
    as ->.
  { apply forallb_forall. intros r Hr%list_elem_of_In.
    apply Nat.leb_le. rewrite Forall_forall in Hlen. by rewrite (Hlen r Hr). }
  do 2 f_equal. induction Hlen as [|r records Hr _ IH]; [done|].
  rewrite fmap_cons, IH. f_equal. unfold pad.
  rewrite Hr, Nat.sub_diag. cbn [replicate drop]. apply app_nil_r.
Qed.

(** C9, as the code has it. For every dataset whose text cells hold no
    carriage return (amounts of at most fifteen digits, calendar dates, no
    text cell that is a missing-value marker), the text [to_csv] writes
    begins with the header line, the column names in the order of the
    frame; reading it back gives the same columns, in the same order and
    with no column of row labels before them, and records that read, each
    cell by the type of its column, as the rows of the dataset. *)
Theorem to_csv_round_trip (data : DataFrame) :
  Forall exportable data →
  ∃ rows,
    read_csv (to_csv data) = Ok (columns, rows)
    ∧ mapM Numeral.row rows = Some data
    ∧ ∃ body, to_csv data = (header_line ++ body)%string.
Proof.
  intros Hdata. exists (text_of <$> data). split; [|split].
  - unfold read_csv, to_csv. rewrite list_ascii_of_string_of_list_ascii.
    assert ((λ r, csv_row (text_of r)) <$> data
            = csv_row <$> (text_of <$> data)) as ->
      by apply (list_fmap_compose text_of csv_row).
    change (csv_row columns ++ concat (csv_row <$> (text_of <$> data)))%list
      with (concat (csv_row <$> (columns :: (text_of <$> data)))).
    rewrite tokenize_rows.
    + apply read_back_same_width. apply Forall_fmap, Forall_forall.
      intros r _. reflexivity.
    + constructor; [apply columns_no_CR|].
      apply Forall_fmap. eapply Forall_impl; [exact Hdata|].
      intros r Hr. split; [simpl; lia|]. by apply row_text_of.
  - apply mapM_Some. apply Forall2_fmap_l, Forall_Forall2_diag.
    eapply Forall_impl; [exact Hdata|]. intros r Hr. by apply row_text_of.
  - exists (string_of_list_ascii (concat ((λ r, csv_row (text_of r)) <$> data))).
    unfold to_csv. by rewrite string_of_list_ascii_app.
Qed.

Lemma to_csv_round_trip_witness :
  ∃ rows,
    read_csv (to_csv scenario3) = Ok (columns, rows)
    ∧ mapM Numeral.row rows = Some scenario3
    ∧ ∃ body, to_csv scenario3 = (header_line ++ body)%string.
Proof. apply (to_csv_round_trip scenario3). apply scenario3_exportable. Defined.

(** C9, as stated, fails for a row whose customer name holds a carriage
    return: the writer leaves the field unquoted, the reader ends the
    record at the carriage return, and what is read back is two rows with
    missing cells, not the row. *)
Lemma to_csv_carriage_return_breaks_round_trip :
  ¬ ∃ rows,
      read_csv (to_csv [cr_row]) = Ok (columns, rows)
      ∧ mapM Numeral.row rows = Some [cr_row].
Proof.
  intros (rows & E & M). vm_compute in E. injection E as <-.
  vm_compute in M. discriminate M.
Qed.

(* ===================================================================== *)
(** ** More on the filter engine *)
(* ===================================================================== *)

Lemma assoc_None {A} (k : string) (l : list (string * A)) :
  k ∉ l.*1 → assoc k l = None.
Proof.
  induction l as [|[k' a] l IH]; [done|]. simpl. intros Hk.
  destruct (String.eqb_spec k k') as [->|Hne].
  - exfalso. apply Hk, list_elem_of_here.
  - apply IH. intros Hin. apply Hk. by apply list_elem_of_further.
Qed.

Lemma filter_all {A} (p : A → bool) (l : list A) :
  (∀ x, p x = true) → List.filter p l = l.
Proof.
  intros Hp. induction l as [|x l IH]; [done|]. simpl. by rewrite Hp, IH.
Qed.

(** With a column of the frame, whatever the values. *)
Lemma filter_data_passes data column values :
  column ∈ columns →
  Toy.filter_data data column values = Ok (List.filter (passes column values) data).
Proof.
  intros Hcol. unfold passes. destruct values as [|v values].
  - rewrite filter_all by done. reflexivity.
  - rewrite filter_data_spec by done. reflexivity.
Qed.

Lemma filter_filter_comm {A} (p q : A → bool) (l : list A) :
  List.filter p (List.filter q l) = List.filter q (List.filter p l).
Proof.
  induction l as [|x l IH]; [done|]. simpl.
  destruct (p x) eqn:P, (q x) eqn:Q; simpl; rewrite ?P, ?Q, IH; reflexivity.
Qed.

Lemma filter_filter_and {A} (p q : A → bool) (l : list A) :
  List.filter q (List.filter p l) = List.filter (λ x, p x && q x) l.
Proof.
  induction l as [|x l IH]; [done|]. simpl.
  destruct (p x) eqn:P; simpl; [destruct (q x)|]; by rewrite IH.
Qed.

Lemma filter_filter_same {A} (p : A → bool) (l : list A) :
  List.filter p (List.filter p l) = List.filter p l.
Proof.
  rewrite filter_filter_and. apply filter_ext. intros x. by destruct (p x).
Qed.

(** A successful filter is the identity or the membership filter. *)
Lemma filter_data_Ok_inv data column values rows :
  Toy.filter_data data column values = Ok rows →
  rows = List.filter (passes column values) data
  ∧ (values = [] ∨ column ∈ columns).
Proof.
  destruct values as [|v values].
  - intros [= <-]. split; [|by left]. by rewrite filter_all.
  - destruct (decide (column ∈ columns)) as [Hcol|Hcol].
    + rewrite filter_data_passes by done. intros [= <-]. auto.
    + unfold Toy.filter_data, getitem. cbn [truthy].
      rewrite (assoc_None column schema Hcol). discriminate.
Qed.

(** Filtering twice with the same column and values changes nothing more:
    whenever [filter_data] returns, applying it again to its result returns
    that result. *)
Theorem filter_data_idempotent data column values rows :
  Toy.filter_data data column values = Ok rows →
  Toy.filter_data rows column values = Ok rows
  ∧ Transportation.filter_data rows column values = Ok rows.
Proof.
  intros Hrows. destruct (filter_data_Ok_inv _ _ _ _ Hrows) as [-> [->|Hcol]].
  - by split.
  - assert (Toy.filter_data (List.filter (passes column values) data) column values
            = Ok (List.filter (passes column values) data)) as E.
    { rewrite filter_data_passes by done. by rewrite filter_filter_same. }
    split; exact E.
Qed.

Lemma filter_data_idempotent_witness :
  Toy.filter_data (drop 2 scenario3) "COUNTRY" ["France"] = Ok (drop 2 scenario3)
  ∧ Transportation.filter_data (drop 2 scenario3) "COUNTRY" ["France"]
    = Ok (drop 2 scenario3).
Proof.
  apply (filter_data_idempotent scenario3 "COUNTRY" ["France"]).
  vm_compute. reflexivity.
Defined.

(** Two filters on columns of the frame can be applied in either order, and
    together they keep the rows that pass both. *)
Theorem filter_data_commute data column1 values1 column2 values2 :
  column1 ∈ columns → column2 ∈ columns →
  (Toy.filter_data data column1 values1
     ≫= λ rows, Toy.filter_data rows column2 values2)
  = (Toy.filter_data data column2 values2
       ≫= λ rows, Toy.filter_data rows column1 values1)
  ∧ (Toy.filter_data data column1 values1
       ≫= λ rows, Toy.filter_data rows column2 values2)
    = Ok (List.filter (λ r, passes column1 values1 r && passes column2 values2 r)
                      data).
Proof.
  intros H1 H2. rewrite !filter_data_passes by done.
  unfold mbind, result_bind. rewrite !filter_data_passes by done.
  split; f_equal; [apply filter_filter_comm|apply filter_filter_and].
Qed.

Lemma in_columns (column : string) :
  bool_decide (column ∈ columns) = true → column ∈ columns.
Proof. apply bool_decide_eq_true. Qed.

Lemma filter_data_commute_witness :
  (Toy.filter_data scenario3 "COUNTRY" ["USA"]
     ≫= λ rows, Toy.filter_data rows "PRODUCTLINE" ["Motorcycles"])
  = (Toy.filter_data scenario3 "PRODUCTLINE" ["Motorcycles"]
       ≫= λ rows, Toy.filter_data rows "COUNTRY" ["USA"])
  ∧ (Toy.filter_data scenario3 "COUNTRY" ["USA"]
       ≫= λ rows, Toy.filter_data rows "PRODUCTLINE" ["Motorcycles"])
    = Ok (List.filter (λ r, passes "COUNTRY" ["USA"] r
                            && passes "PRODUCTLINE" ["Motorcycles"] r)
                      scenario3).
Proof.
  apply (filter_data_commute scenario3 "COUNTRY" ["USA"] "PRODUCTLINE" ["Motorcycles"]);
    apply in_columns; vm_compute; reflexivity.
Defined.

(** A label that is no column of the frame raises KeyError, with that
    label, as soon as there is a value to look for. *)
Theorem filter_data_unknown_column data column values :
  column ∉ columns → values ≠ [] →
  Toy.filter_data data column values = Raise (KeyError column)
  ∧ Transportation.filter_data data column values = Raise (KeyError column).
Proof.
  intros Hcol Hval.
  assert (Toy.filter_data data column values = Raise (KeyError column)) as E.
  { unfold Toy.filter_data, getitem. rewrite truthy_nonempty by done.
    by rewrite (assoc_None column schema Hcol). }
  split; exact E.
Qed.

Lemma filter_data_unknown_column_witness :
  Toy.filter_data scenario3 "REGION" ["EMEA"] = Raise (KeyError "REGION")
  ∧ Transportation.filter_data scenario3 "REGION" ["EMEA"]
    = Raise (KeyError "REGION").
Proof.
  apply (filter_data_unknown_column scenario3 "REGION" ["EMEA"]).
  - apply (bool_decide_eq_false_1 ("REGION" ∈ columns)). vm_compute. reflexivity.
  - discriminate.
Defined.

(* ===================================================================== *)
(** ** More on the KPI aggregator *)
(* ===================================================================== *)

Section nunique_facts.
Context `{Countable A}.

Lemma unique_from_length_le (seen : gset A) (s : list A) :
  (length (unique_from seen s) ≤ length s)%nat.
Proof.
  revert seen. induction s as [|x s IH]; intros seen; simpl; [done|].
  destruct (decide (x ∈ seen)); simpl.
  - specialize (IH seen). lia.
  - specialize (IH ({[x]} ∪ seen)). lia.
Qed.

Lemma nunique_le_len (s : list A) : 0 ≤ nunique s ≤ len s.
Proof.
  unfold nunique, unique, len.
  pose proof (unique_from_length_le ∅ s). lia.
Qed.

Lemma nunique_subset (s t : list A) :
  (∀ x, x ∈ s → x ∈ t) → nunique s ≤ nunique t.
Proof.
  intros Hst. rewrite !nunique_size. apply inj_le, subseteq_size.
  intros x. rewrite !elem_of_list_to_set. apply Hst.
Qed.
End nunique_facts.

Lemma calculate_kpis_shape data :
  ∃ total_text avg_text,
    Toy.calculate_kpis data
    = Ok [PStr total_text; PInt (nunique (ORDERNUMBER <$> data));
          PStr avg_text; PInt (nunique (CUSTOMERNAME <$> data))].
Proof. eexists _, _. apply calculate_kpis_eq. Qed.

(** Whenever [calculate_kpis] returns, the two counts it returns lie
    between zero and the number of rows; the two copies of the function
    agree. *)
Theorem calculate_kpis_counts_bounded data kpis :
  Toy.calculate_kpis data = Ok kpis →
  ∃ total_text orders avg_text customers,
    kpis = [PStr total_text; PInt orders; PStr avg_text; PInt customers]
    ∧ Transportation.calculate_kpis data = Ok kpis
    ∧ 0 ≤ orders ≤ len data
    ∧ 0 ≤ customers ≤ len data.
Proof.
  intros Hk. destruct (calculate_kpis_shape data) as (t & a & E).
  rewrite E in Hk. injection Hk as <-.
  eexists _, _, _, _. split; [reflexivity|]. split; [exact E|].
  pose proof (nunique_le_len (ORDERNUMBER <$> data)) as Ho.
  pose proof (nunique_le_len (CUSTOMERNAME <$> data)) as Hc.
  unfold len in *. rewrite !length_fmap in *. unfold nunique in *. lia.
Qed.

Lemma calculate_kpis_counts_bounded_witness :
  ∃ total_text orders avg_text customers,
    [PStr "0.00M"; PInt 2; PStr "0.15K"; PInt 2]
    = [PStr total_text; PInt orders; PStr avg_text; PInt customers]
    ∧ Transportation.calculate_kpis scenario3
      = Ok [PStr "0.00M"; PInt 2; PStr "0.15K"; PInt 2]
    ∧ 0 ≤ orders ≤ len scenario3
    ∧ 0 ≤ customers ≤ len scenario3.
Proof.
  apply (calculate_kpis_counts_bounded scenario3). vm_compute. reflexivity.
Defined.

Lemma filter_elem {A} (p : A → bool) (l : list A) (x : A) :
  x ∈ List.filter p l → x ∈ l.
Proof. rewrite !list_elem_of_In, filter_In. tauto. Qed.

Lemma filter_length_le {A} (p : A → bool) (l : list A) :
  (length (List.filter p l) ≤ length l)%nat.
Proof.
  induction l as [|x l IH]; [done|]. simpl. destruct (p x); simpl; lia.
Qed.

(** Filtering can only lower the counts: the KPIs of what [filter_data]
    returns count no more rows, orders or customers than those of its
    input. *)
Theorem filter_data_lowers_counts data column values rows :
  Toy.filter_data data column values = Ok rows →
  ∃ t o a c t' o' a' c',
    Toy.calculate_kpis data = Ok [PStr t; PInt o; PStr a; PInt c]
    ∧ Toy.calculate_kpis rows = Ok [PStr t'; PInt o'; PStr a'; PInt c']
    ∧ o' ≤ o ∧ c' ≤ c ∧ len rows ≤ len data.
Proof.
  intros Hrows. destruct (filter_data_Ok_inv _ _ _ _ Hrows) as [-> _].
  destruct (calculate_kpis_shape data) as (t & a & E).
  destruct (calculate_kpis_shape (List.filter (passes column values) data))
    as (t' & a' & E').
  eexists _, _, _, _, _, _, _, _. split; [exact E|]. split; [exact E'|].
  split; [|split].
  - apply nunique_subset. intros x. rewrite !list_elem_of_fmap.
    intros (r & -> & Hr). exists r. split; [done|]. by eapply filter_elem.
  - apply nunique_subset. intros x. rewrite !list_elem_of_fmap.
    intros (r & -> & Hr). exists r. split; [done|]. by eapply filter_elem.
  - unfold len. apply inj_le, filter_length_le.
Qed.

Lemma filter_data_lowers_counts_witness :
  ∃ t o a c t' o' a' c',
    Toy.calculate_kpis scenario3 = Ok [PStr t; PInt o; PStr a; PInt c]
    ∧ Toy.calculate_kpis (drop 2 scenario3)
      = Ok [PStr t'; PInt o'; PStr a'; PInt c']
    ∧ o' ≤ o ∧ c' ≤ c ∧ len (drop 2 scenario3) ≤ len scenario3.
Proof.
  apply (filter_data_lowers_counts scenario3 "COUNTRY" ["France"]).
  vm_compute. reflexivity.
Defined.

(* ===================================================================== *)
(** ** The dashboards, end to end *)
(* ===================================================================== *)

Lemma run_eta {A} (m : run A) : Run (events m) (outcome m) = m.
Proof. by destruct m. Qed.

Lemma bind_lift_Ok {A B} (a : A) (k : A → run B) : (lift (Ok a) ≫= k) = k a.
Proof. unfold mbind, run_bind, lift. simpl. apply run_eta. Qed.

Lemma bind_Run_Ok {A B} (es : list event) (a : A) (k : A → run B) :
  (Run es (Ok a) ≫= k) = Run (es ++ events (k a)) (outcome (k a)).
Proof. reflexivity. Qed.

Lemma emit_tiles (l : list (string * pyobj)) :
  foldr (λ '(kpi_name, kpi_value) rest,
           emit (Metric kpi_name kpi_value);; rest)
        (mret ()) l
  = Run ((λ nv, Metric nv.1 nv.2) <$> l) (Ok ()).
Proof.
  induction l as [|[n v] l IH]; [done|]. cbn [foldr]. rewrite IH. reflexivity.
Qed.

Lemma display_kpi_metrics_eq kpis names :
  Toy.display_kpi_metrics kpis names
  = Run (Header "KPI Metrics" :: tiles names kpis) (Ok ()).
Proof. unfold Toy.display_kpi_metrics. rewrite emit_tiles. reflexivity. Qed.

Lemma count_metrics_metric n v es :
  count_metrics (Metric n v :: es) = S (count_metrics es).
Proof. reflexivity. Qed.

Lemma count_metrics_fmap (l : list (string * pyobj)) :
  count_metrics ((λ nv, Metric nv.1 nv.2) <$> l) = length l.
Proof.
  induction l as [|x l IH]; [done|].
  by rewrite fmap_cons, count_metrics_metric, IH.
Qed.

(** [display_kpi_metrics] renders the header and one tile per name that
    has a value, in order, and never more than four: a fifth KPI, a name
    without a value or a value without a name is silently left out. *)
Theorem display_kpi_metrics_tiles kpis names :
  Toy.display_kpi_metrics kpis names
  = Run (Header "KPI Metrics" :: tiles names kpis) (Ok ())
  ∧ count_metrics (events (Toy.display_kpi_metrics kpis names))
    = (4 `min` (length names `min` length kpis))%nat
  ∧ ∀ i name value,
      tiles names kpis !! i = Some (Metric name value)
      ↔ (i < 4)%nat ∧ names !! i = Some name ∧ kpis !! i = Some value.
Proof.
  split; [apply display_kpi_metrics_eq|]. split.
  - rewrite display_kpi_metrics_eq. cbn [events].
    change (count_metrics (Header "KPI Metrics" :: tiles names kpis))
      with (count_metrics (tiles names kpis)).
    unfold tiles. rewrite count_metrics_fmap, length_take, length_zip_with.
    reflexivity.
  - intros i name value. unfold tiles. rewrite list_lookup_fmap.
    destruct (decide (i < 4)%nat) as [Hi|Hi].
    + rewrite lookup_take_lt by done. rewrite lookup_zip_with.
      destruct (names !! i) as [n|], (kpis !! i) as [v|]; simpl.
      * split; [by intros [= <- <-]|by intros (_ & [= ->] & [= ->])].
      * split; [done|by intros (_ & _ & ?)].
      * split; [done|by intros (_ & ? & _)].
      * split; [done|by intros (_ & ? & _)].
    + rewrite lookup_take_ge by lia. simpl. split; [done|]. intros [? _]. lia.
Qed.

Lemma bind_emit {B} (e : event) (k : () → run B) :
  (emit e ≫= k) = Run (e :: events (k ())) (outcome (k ())).
Proof. reflexivity. Qed.

Lemma sorted_elem (l : list string) (x : string) : x ∈ Toy.sorted l ↔ x ∈ l.
Proof. unfold Toy.sorted. by rewrite merge_sort_Permutation. Qed.

Lemma multiselect_elem options default entered v :
  v ∈ multiselect options default entered →
  v ∈ options ∨ (entered = None ∧ v ∈ default).
Proof.
  destruct entered as [picked|]; simpl.
  - rewrite list_elem_of_filter. intros [? _]. by left.
  - intros ?. by right.
Qed.

Lemma toy_display_sidebar_eq ui data :
  Toy.display_sidebar ui data
  = Run [Header "Filters"; Info "Jerald Ting Dashboard Studio"]
        (Ok (multiselect (Toy.sorted (unique (PRODUCTLINE <$> data)))
                         (Toy.sorted (unique (PRODUCTLINE <$> data)))
                         (Toy.product_lines_entered ui),
             multiselect (unique (COUNTRY <$> data)) [] (Toy.countries_entered ui),
             multiselect (unique (STATUS <$> data)) [] (Toy.statuses_entered ui),
             Toy.search_clicked ui)).
Proof. reflexivity. Qed.

(** Whatever the user has entered, [display_sidebar] returns only values
    that occur in the data: each selected product line, country and status
    is carried by some row.  Left alone, the widgets select every product
    line, no country and no status.  The dates are not part of what is
    returned. *)
Theorem display_sidebar_selects_values_of_the_data ui data pl c s b :
  outcome (Toy.display_sidebar ui data) = Ok (pl, c, s, b) →
  (∀ v, v ∈ pl → v ∈ PRODUCTLINE <$> data)
  ∧ (∀ v, v ∈ c → v ∈ COUNTRY <$> data)
  ∧ (∀ v, v ∈ s → v ∈ STATUS <$> data)
  ∧ b = Toy.search_clicked ui
  ∧ (Toy.product_lines_entered ui = None →
     ∀ r, r ∈ data → PRODUCTLINE r ∈ pl)
  ∧ (Toy.countries_entered ui = None → c = [])
  ∧ (Toy.statuses_entered ui = None → s = []).
Proof.
  rewrite toy_display_sidebar_eq. cbn [outcome]. intros [= <- <- <- <-].
  repeat split.
  - intros v [Hv|[_ Hv]]%multiselect_elem;
      by apply unique_elem, sorted_elem.
  - intros v [Hv|[_ Hv]]%multiselect_elem; [by apply unique_elem|].
    by apply elem_of_nil in Hv.
  - intros v [Hv|[_ Hv]]%multiselect_elem; [by apply unique_elem|].
    by apply elem_of_nil in Hv.
  - intros -> r Hr. simpl. apply sorted_elem, unique_elem.
    by apply list_elem_of_fmap_2.
  - by intros ->.
  - by intros ->.
Qed.

Lemma display_sidebar_selects_values_of_the_data_witness :
  (∀ v, v ∈ ["Classic Cars"; "Motorcycles"] → v ∈ PRODUCTLINE <$> scenario3)
  ∧ (∀ v, v ∈ ["France"] → v ∈ COUNTRY <$> scenario3)
  ∧ (∀ v, v ∈ [] → v ∈ STATUS <$> scenario3)
  ∧ true = Toy.search_clicked france_selected
  ∧ (Toy.product_lines_entered france_selected = None →
     ∀ r, r ∈ scenario3 → PRODUCTLINE r ∈ ["Classic Cars"; "Motorcycles"])
  ∧ (Toy.countries_entered france_selected = None → ["France"] = [])
  ∧ (Toy.statuses_entered france_selected = None → @nil string = []).
Proof.
  apply (display_sidebar_selects_values_of_the_data france_selected scenario3).
  vm_compute. reflexivity.
Defined.

Lemma passes_product_line values r :
  passes "PRODUCTLINE" values r = lets_through values (PRODUCTLINE r).
Proof. reflexivity. Qed.

Lemma passes_country values r :
  passes "COUNTRY" values r = lets_through values (COUNTRY r).
Proof. reflexivity. Qed.

Lemma passes_status values r :
  passes "STATUS" values r = lets_through values (STATUS r).
Proof. reflexivity. Qed.

Lemma three_filters data pl c s :
  List.filter (passes "STATUS" s)
    (List.filter (passes "COUNTRY" c)
       (List.filter (passes "PRODUCTLINE" pl) data))
  = shown_rows pl c s data.
Proof.
  rewrite !filter_filter_and. apply filter_ext. intros r.
  by rewrite andb_assoc.
Qed.

Lemma product_line_column : "PRODUCTLINE" ∈ columns.
Proof. apply in_columns. vm_compute. reflexivity. Qed.
Lemma country_column : "COUNTRY" ∈ columns.
Proof. apply in_columns. vm_compute. reflexivity. Qed.
Lemma status_column : "STATUS" ∈ columns.
Proof. apply in_columns. vm_compute. reflexivity. Qed.

Lemma user_feedback_outcome ui : outcome (Toy.user_feedback ui) = Ok ().
Proof.
  unfold Toy.user_feedback.
  destruct (Toy.submit_clicked ui);
    [destruct (negb (String.eqb (Toy.feedback_entered ui) ""))|]; reflexivity.
Qed.

Lemma toy_data_part ui data pl c s kpis :
  Toy.calculate_kpis (shown_rows pl c s data) = Ok kpis →
  (lift (Toy.filter_data data "PRODUCTLINE" pl)
   ≫= λ filtered_data,
        lift (Toy.filter_data filtered_data "COUNTRY" c)
        ≫= λ filtered_data0,
             lift (Toy.filter_data filtered_data0 "STATUS" s)
             ≫= λ filtered_data1,
                  lift (Toy.calculate_kpis filtered_data1)
                  ≫= λ kpis,
                       Toy.display_kpi_metrics kpis Toy.kpi_names
                       ≫= λ _,
                            Toy.display_charts ui filtered_data1
                            ≫= λ _,
                                 emit (Header "Export Data")
                                 ≫= λ _, Toy.add_download_button filtered_data1)
  = Run (data_part kpis (shown_rows pl c s data)
                   (combine_of (Toy.combine_entered ui)))
        (Ok ()).
Proof.
  intros Hk.
  rewrite (filter_data_passes _ _ _ product_line_column), bind_lift_Ok.
  rewrite (filter_data_passes _ _ _ country_column), bind_lift_Ok.
  rewrite (filter_data_passes _ _ _ status_column), bind_lift_Ok.
  rewrite three_filters, Hk, bind_lift_Ok, display_kpi_metrics_eq.
  reflexivity.
Qed.

Lemma toy_main_run ui data :
  ∃ pl c s kpis,
    outcome (Toy.display_sidebar ui data) = Ok (pl, c, s, Toy.search_clicked ui)
    ∧ Toy.calculate_kpis (shown_rows pl c s data) = Ok kpis
    ∧ Toy.main ui data
      = Run ([Title "📊 Toy Store Sales Dashboard"; Header "Filters";
              Info "Jerald Ting Dashboard Studio"]
             ++ (if Toy.search_clicked ui
                 then data_part kpis (shown_rows pl c s data)
                                (combine_of (Toy.combine_entered ui))
                 else [])
             ++ events (Toy.user_feedback ui))
            (Ok ()).
Proof.
  rewrite toy_display_sidebar_eq. cbn [outcome].
  eexists _, _, _.
  match goal with
  | |- ∃ kpis, _ ∧ Toy.calculate_kpis ?F = _ ∧ _ =>
      destruct (calculate_kpis_shape F) as (t & a & Hk)
  end.
  eexists. split; [reflexivity|]. split; [exact Hk|].
  unfold Toy.main. rewrite bind_emit, toy_display_sidebar_eq, !bind_Run_Ok.
  cbn beta iota. destruct (Toy.search_clicked ui).
  - rewrite (toy_data_part _ _ _ _ _ _ Hk), !bind_Run_Ok.
    cbn [events outcome]. rewrite user_feedback_outcome.
    f_equal.
  - cbn [events outcome mret run_ret mbind run_bind app].
    by rewrite user_feedback_outcome.
Qed.


Lemma transportation_display_sidebar_eq ui data :
  Transportation.display_sidebar ui data
  = Run [Header "Filters"; Info "Jerald Ting Dashboard Studio"]
        (Ok (multiselect (Toy.sorted (unique (PRODUCTLINE <$> data)))
                         (Toy.sorted (unique (PRODUCTLINE <$> data)))
                         (Transportation.product_lines_entered ui),
             multiselect (unique (COUNTRY <$> data)) []
                         (Transportation.countries_entered ui),
             multiselect (unique (STATUS <$> data)) []
                         (Transportation.statuses_entered ui))).
Proof. reflexivity. Qed.

Lemma transportation_data_part ui data pl c s kpis :
  Toy.calculate_kpis (shown_rows pl c s data) = Ok kpis →
  (lift (Transportation.filter_data data "PRODUCTLINE" pl)
   ≫= λ filtered_data,
        lift (Transportation.filter_data filtered_data "COUNTRY" c)
        ≫= λ filtered_data0,
             lift (Transportation.filter_data filtered_data0 "STATUS" s)
             ≫= λ filtered_data1,
                  lift (Transportation.calculate_kpis filtered_data1)
                  ≫= λ kpis,
                       Toy.display_kpi_metrics kpis Toy.kpi_names
                       ≫= λ _,
                            Transportation.display_charts ui filtered_data1
                            ≫= λ _,
                                 emit (Header "Export Data")
                                 ≫= λ _,
                                      Transportation.add_download_button
                                        filtered_data1)
  = Run (data_part kpis (shown_rows pl c s data)
                   (combine_of (Transportation.combine_entered ui)))
        (Ok ()).
Proof.
  intros Hk.
  change Transportation.filter_data with Toy.filter_data.
  change Transportation.calculate_kpis with Toy.calculate_kpis.
  rewrite (filter_data_passes _ _ _ product_line_column), bind_lift_Ok.
  rewrite (filter_data_passes _ _ _ country_column), bind_lift_Ok.
  rewrite (filter_data_passes _ _ _ status_column), bind_lift_Ok.
  rewrite three_filters, Hk, bind_lift_Ok, display_kpi_metrics_eq.
  reflexivity.
Qed.

Lemma transportation_main_eq ui data kpis :
  let pl := product_lines_of (Transportation.product_lines_entered ui) data in
  let c := countries_of (Transportation.countries_entered ui) data in
  let s := statuses_of (Transportation.statuses_entered ui) data in
  Toy.calculate_kpis (shown_rows pl c s data) = Ok kpis →
  Transportation.main ui data
  = Run ([Title "📊 Transportation Sales Dashboard"; Header "Filters";
          Info "Jerald Ting Dashboard Studio"]
         ++ data_part kpis (shown_rows pl c s data)
                      (combine_of (Transportation.combine_entered ui)))
        (Ok ()).
Proof.
  intros pl c s Hk. unfold Transportation.main.
  rewrite bind_emit, transportation_display_sidebar_eq, !bind_Run_Ok.
  cbn beta iota. by rewrite (transportation_data_part _ _ _ _ _ _ Hk).
Qed.

Lemma transportation_main_run ui data :
  ∃ pl c s kpis,
    outcome (Transportation.display_sidebar ui data) = Ok (pl, c, s)
    ∧ Transportation.calculate_kpis (shown_rows pl c s data) = Ok kpis
    ∧ Transportation.main ui data
      = Run ([Title "📊 Transportation Sales Dashboard"; Header "Filters";
              Info "Jerald Ting Dashboard Studio"]
             ++ data_part kpis (shown_rows pl c s data)
                          (combine_of (Transportation.combine_entered ui)))
            (Ok ()).
Proof.
  exists (product_lines_of (Transportation.product_lines_entered ui) data),
         (countries_of (Transportation.countries_entered ui) data),
         (statuses_of (Transportation.statuses_entered ui) data).
  match goal with
  | |- ∃ kpis, _ ∧ Transportation.calculate_kpis ?F = _ ∧ _ =>
      destruct (calculate_kpis_shape F) as (t & a & Hk)
  end.
  eexists. split; [reflexivity|]. split; [exact Hk|].
  by apply transportation_main_eq.
Qed.


Lemma filter_all_in {A} (p : A → bool) (l : list A) :
  (∀ x, x ∈ l → p x = true) → List.filter p l = l.
Proof.
  induction l as [|x l IH]; intros Hp; [done|]. simpl.
  rewrite Hp by apply list_elem_of_here. f_equal. apply IH.
  intros y Hy. by apply Hp, list_elem_of_further.
Qed.

Lemma shown_rows_untouched data :
  shown_rows (product_lines_of None data) (countries_of None data)
             (statuses_of None data) data
  = data.
Proof.
  apply filter_all_in. intros r Hr. unfold lets_through. simpl.
  rewrite !andb_true_r. apply orb_true_iff. right.
  apply bool_decide_eq_true, sorted_elem, unique_elem.
  by apply list_elem_of_fmap_2.
Qed.

Lemma transportation_untouched_run ui data :
  Transportation.product_lines_entered ui = None →
  Transportation.countries_entered ui = None →
  Transportation.statuses_entered ui = None →
  ∃ kpis,
    Transportation.calculate_kpis data = Ok kpis
    ∧ Transportation.main ui data
      = Run ([Title "📊 Transportation Sales Dashboard"; Header "Filters";
              Info "Jerald Ting Dashboard Studio"]
             ++ data_part kpis data
                          (combine_of (Transportation.combine_entered ui)))
            (Ok ()).
Proof.
  intros Hp Hc Hs. destruct (calculate_kpis_shape data) as (t & a & Hk).
  eexists. split; [exact Hk|].
  pose proof (transportation_main_eq ui data) as E. cbv zeta in E.
  rewrite Hp, Hc, Hs, shown_rows_untouched in E. by apply E.
Qed.


Lemma toy_main_idle_run ui data :
  Toy.search_clicked ui = false →
  Toy.main ui data
  = Run ([Title "📊 Toy Store Sales Dashboard"; Header "Filters";
          Info "Jerald Ting Dashboard Studio"]
         ++ events (Toy.user_feedback ui))
        (Ok ())
  ∧ count_metrics (events (Toy.main ui data)) = 0%nat
  ∧ ∀ shown combine text,
      (Charts shown combine ∉ events (Toy.main ui data))
      ∧ (DownloadButton text ∉ events (Toy.main ui data)).
Proof.
  intros Hs.
  assert (Toy.main ui data
          = Run ([Title "📊 Toy Store Sales Dashboard"; Header "Filters";
                  Info "Jerald Ting Dashboard Studio"]
                 ++ events (Toy.user_feedback ui))
                (Ok ())) as E.
  { unfold Toy.main.
    rewrite bind_emit, toy_display_sidebar_eq, !bind_Run_Ok.
    cbn beta iota. rewrite Hs.
    cbn [events outcome mret run_ret mbind run_bind app].
    by rewrite user_feedback_outcome. }
  split; [exact E|]. rewrite E. cbn [events app].
  unfold Toy.user_feedback.
  destruct (Toy.submit_clicked ui);
    [destruct (negb (String.eqb (Toy.feedback_entered ui) ""))|];
    (split; [reflexivity|]); intros shown combine text; cbn;
    split; intros Hin;
    repeat (apply elem_of_cons in Hin as [Hin|Hin]; [discriminate Hin|]);
    by apply elem_of_nil in Hin.
Qed.


(** Left alone, the product line widget of the sidebar selects the product
    lines of the data in ascending order, each of them once. *)
Theorem default_product_lines_sorted ui data pl c s :
  Transportation.product_lines_entered ui = None →
  outcome (Transportation.display_sidebar ui data) = Ok (pl, c, s) →
  Sorted String.le pl ∧ NoDup pl ∧ pl ≡ₚ unique (PRODUCTLINE <$> data).
Proof.
  rewrite transportation_display_sidebar_eq. cbn [outcome].
  intros -> [= <- _ _]. cbn [multiselect]. unfold Toy.sorted.
  split; [apply Sorted_merge_sort; apply _|].
  split; [|apply merge_sort_Permutation].
  rewrite merge_sort_Permutation. apply unique_NoDup.
Qed.

Lemma default_product_lines_sorted_witness :
  Sorted String.le ["Classic Cars"; "Motorcycles"]
  ∧ NoDup ["Classic Cars"; "Motorcycles"]
  ∧ ["Classic Cars"; "Motorcycles"] ≡ₚ unique (PRODUCTLINE <$> scenario3).
Proof.
  apply (default_product_lines_sorted transportation_untouched scenario3
           ["Classic Cars"; "Motorcycles"] [] []);
    reflexivity.
Defined.

(** *** Runs that return *)

(** A run of the toy-store dashboard that returns has rendered the title
    and the sidebar; after a click on Search, and only then, the KPIs, the
    charts and the download of exactly the rows that the three selections
    let through (a selection with no value lets every row through), the
    download being the CSV text of the charted rows; last, the feedback
    box. *)
Theorem toy_main_renders ui data :
  outcome (Toy.main ui data) = Ok () →
  ∃ pl c s kpis,
    outcome (Toy.display_sidebar ui data) = Ok (pl, c, s, Toy.search_clicked ui)
    ∧ Toy.calculate_kpis (shown_rows pl c s data) = Ok kpis
    ∧ events (Toy.main ui data)
      = ([Title "📊 Toy Store Sales Dashboard"; Header "Filters";
          Info "Jerald Ting Dashboard Studio"]
         ++ (if Toy.search_clicked ui
             then data_part kpis (shown_rows pl c s data)
                            (combine_of (Toy.combine_entered ui))
             else [])
         ++ events (Toy.user_feedback ui))%list.
Proof.
  intros _. destruct (toy_main_run ui data) as (pl & c & s & kpis & Hs & Hk & E).
  exists pl, c, s, kpis. split; [exact Hs|]. split; [exact Hk|].
  by rewrite E.
Qed.

Lemma toy_main_renders_witness :
  ∃ pl c s kpis,
    outcome (Toy.display_sidebar dates_2004 scenario3)
    = Ok (pl, c, s, Toy.search_clicked dates_2004)
    ∧ Toy.calculate_kpis (shown_rows pl c s scenario3) = Ok kpis
    ∧ events (Toy.main dates_2004 scenario3)
      = ([Title "📊 Toy Store Sales Dashboard"; Header "Filters";
          Info "Jerald Ting Dashboard Studio"]
         ++ (if Toy.search_clicked dates_2004
             then data_part kpis (shown_rows pl c s scenario3)
                            (combine_of (Toy.combine_entered dates_2004))
             else [])
         ++ events (Toy.user_feedback dates_2004))%list.
Proof. apply (toy_main_renders dates_2004 scenario3). reflexivity. Defined.

(** A run of the toy-store dashboard that returns without a click on
    Search has shown nothing of the data: the title, the sidebar and the
    feedback box, with no KPI tile, no chart and no download. *)
Theorem toy_main_without_search ui data :
  outcome (Toy.main ui data) = Ok () →
  Toy.search_clicked ui = false →
  events (Toy.main ui data)
  = ([Title "📊 Toy Store Sales Dashboard"; Header "Filters";
      Info "Jerald Ting Dashboard Studio"]
     ++ events (Toy.user_feedback ui))%list
  ∧ count_metrics (events (Toy.main ui data)) = 0%nat
  ∧ ∀ shown combine text,
      (Charts shown combine ∉ events (Toy.main ui data))
      ∧ (DownloadButton text ∉ events (Toy.main ui data)).
Proof.
  intros _ Hs. destruct (toy_main_idle_run ui data Hs) as (E & Hm & Hn).
  split; [by rewrite E|]. by split.
Qed.

Lemma toy_main_without_search_witness :
  events (Toy.main nothing_entered scenario3)
  = ([Title "📊 Toy Store Sales Dashboard"; Header "Filters";
      Info "Jerald Ting Dashboard Studio"]
     ++ events (Toy.user_feedback nothing_entered))%list
  ∧ count_metrics (events (Toy.main nothing_entered scenario3)) = 0%nat
  ∧ ∀ shown combine text,
      (Charts shown combine ∉ events (Toy.main nothing_entered scenario3))
      ∧ (DownloadButton text ∉ events (Toy.main nothing_entered scenario3)).
Proof.
  apply (toy_main_without_search nothing_entered scenario3); reflexivity.
Defined.

(** A run of the transportation dashboard that returns has rendered the
    KPIs, the charts and the download of exactly the rows that the three
    selections let through, the download being the CSV text of the charted
    rows. *)
Theorem transportation_main_renders ui data :
  outcome (Transportation.main ui data) = Ok () →
  ∃ pl c s kpis,
    outcome (Transportation.display_sidebar ui data) = Ok (pl, c, s)
    ∧ Transportation.calculate_kpis (shown_rows pl c s data) = Ok kpis
    ∧ events (Transportation.main ui data)
      = ([Title "📊 Transportation Sales Dashboard"; Header "Filters";
          Info "Jerald Ting Dashboard Studio"]
         ++ data_part kpis (shown_rows pl c s data)
                      (combine_of (Transportation.combine_entered ui)))%list.
Proof.
  intros _.
  destruct (transportation_main_run ui data) as (pl & c & s & kpis & Hs & Hk & E).
  exists pl, c, s, kpis. split; [exact Hs|]. split; [exact Hk|].
  by rewrite E.
Qed.

Lemma transportation_main_renders_witness :
  ∃ pl c s kpis,
    outcome (Transportation.display_sidebar transportation_dates_2004 scenario3)
    = Ok (pl, c, s)
    ∧ Transportation.calculate_kpis (shown_rows pl c s scenario3) = Ok kpis
    ∧ events (Transportation.main transportation_dates_2004 scenario3)
      = ([Title "📊 Transportation Sales Dashboard"; Header "Filters";
          Info "Jerald Ting Dashboard Studio"]
         ++ data_part kpis (shown_rows pl c s scenario3)
                      (combine_of (Transportation.combine_entered
                                     transportation_dates_2004)))%list.
Proof.
  apply (transportation_main_renders transportation_dates_2004 scenario3).
  reflexivity.
Defined.

(** A run of the transportation dashboard that returns with the sidebar
    left as it comes up (every product line selected, no country, no
    status) has filtered nothing: it has counted, charted and exported the
    whole dataset. *)
Theorem untouched_sidebar_shows_everything ui data :
  outcome (Transportation.main ui data) = Ok () →
  Transportation.product_lines_entered ui = None →
  Transportation.countries_entered ui = None →
  Transportation.statuses_entered ui = None →
  ∃ kpis,
    Transportation.calculate_kpis data = Ok kpis
    ∧ events (Transportation.main ui data)
      = ([Title "📊 Transportation Sales Dashboard"; Header "Filters";
          Info "Jerald Ting Dashboard Studio"]
         ++ data_part kpis data
                      (combine_of (Transportation.combine_entered ui)))%list.
Proof.
  intros _ Hp Hc Hs.
  destruct (transportation_untouched_run ui data Hp Hc Hs) as (kpis & Hk & E).
  exists kpis. split; [exact Hk|]. by rewrite E.
Qed.

Lemma untouched_sidebar_shows_everything_witness :
  ∃ kpis,
    Transportation.calculate_kpis scenario3 = Ok kpis
    ∧ events (Transportation.main transportation_untouched scenario3)
      = ([Title "📊 Transportation Sales Dashboard"; Header "Filters";
          Info "Jerald Ting Dashboard Studio"]
         ++ data_part kpis scenario3
                      (combine_of (Transportation.combine_entered
                                     transportation_untouched)))%list.
Proof.
  apply (untouched_sidebar_shows_everything transportation_untouched scenario3);
    reflexivity.
Defined.
(* ===================================================================== *)
(** ** Regression page: the filter, the metrics, the errors *)
(* ===================================================================== *)

Lemma mask_filter (p c : option string) (q : option Z) (df : DataFrame) :
  getitem_mask df
    (and_mask (and_mask (eq_mask (PRODUCTLINE <$> df) p)
                        (eq_mask (COUNTRY <$> df) c))
              (eq_mask (QTR_ID <$> df) q))
  = List.filter (matches p c q) df.
Proof.
  induction df as [|r df IH]; [done|].
  unfold eq_mask, and_mask in *. rewrite !fmap_cons.
  cbn [zip_with getitem_mask List.filter]. rewrite IH. reflexivity.
Qed.

Lemma filtered_df_eq ui df :
  Predict.filtered_df ui df
  = List.filter (matches (Predict.selected_product ui df)
                         (Predict.selected_country ui df)
                         (Predict.selected_quarter ui df)) df.
Proof. apply mask_filter. Qed.

(** The rows the regression page works on are exactly the rows of the
    frame whose product line, country and quarter are the three selected
    ones. *)
Theorem filtered_df_rows ui df r :
  r ∈ Predict.filtered_df ui df
  ↔ r ∈ df
    ∧ Some (PRODUCTLINE r) = Predict.selected_product ui df
    ∧ Some (COUNTRY r) = Predict.selected_country ui df
    ∧ Some (QTR_ID r) = Predict.selected_quarter ui df.
Proof.
  rewrite filtered_df_eq, !list_elem_of_In, filter_In. unfold matches.
  rewrite !andb_true_iff, !bool_decide_eq_true. tauto.
Qed.

Lemma head_unique `{Countable A} (s : list A) : head (unique s) = head s.
Proof. destruct s as [|x s]; [done|]. unfold unique. simpl.
  by destruct (decide (x ∈ (∅ : gset A))) as [Hin|_]; [set_solver|]. Qed.

Lemma selectbox_elem `{EqDecision A} (options : list A) entered (x : A) :
  selectbox options entered = Some x → x ∈ options.
Proof.
  unfold selectbox. intros E.
  assert (head options = Some x → x ∈ options) as Hh.
  { destruct options; [done|]. intros [= ->]. apply list_elem_of_here. }
  destruct entered as [v|]; [|by apply Hh].
  destruct (decide (v ∈ options)); [by injection E as <-|by apply Hh].
Qed.

Lemma selectbox_is_Some `{EqDecision A} (options : list A) entered :
  options ≠ [] → is_Some (selectbox options entered).
Proof.
  intros Hne. unfold selectbox.
  assert (is_Some (head options)) by (destruct options; [done|by eexists]).
  destruct entered as [v|]; [|done]. by destruct (decide (v ∈ options)).
Qed.

Lemma unique_nonempty `{Countable A} (s : list A) : s ≠ [] → unique s ≠ [].
Proof.
  intros Hne Hu. destruct s as [|x s]; [done|].
  pose proof (head_unique (x :: s)) as E. by rewrite Hu in E.
Qed.

(** Whatever the user enters, each of the three selections of the
    regression page is a value that occurs in its column of a non-empty
    frame. *)
Theorem selections_occur_in_the_frame ui df :
  df ≠ [] →
  ∃ p c q,
    Predict.selected_product ui df = Some p ∧ p ∈ PRODUCTLINE <$> df
    ∧ Predict.selected_country ui df = Some c ∧ c ∈ COUNTRY <$> df
    ∧ Predict.selected_quarter ui df = Some q ∧ q ∈ QTR_ID <$> df.
Proof.
  intros Hne.
  assert (∀ {B} (f : SalesRecord → B), f <$> df ≠ []) as Hf.
  { intros B f E. by apply fmap_nil_inv in E. }
  unfold Predict.selected_product, Predict.selected_country,
    Predict.selected_quarter.
  destruct (selectbox_is_Some (unique (PRODUCTLINE <$> df))
              (Predict.product_entered ui)) as [p Hp];
    [by apply unique_nonempty|].
  destruct (selectbox_is_Some (unique (COUNTRY <$> df))
              (Predict.country_entered ui)) as [c Hc];
    [by apply unique_nonempty|].
  destruct (selectbox_is_Some (unique (QTR_ID <$> df))
              (Predict.quarter_entered ui)) as [q Hq];
    [by apply unique_nonempty|].
  exists p, c, q. rewrite Hp, Hc, Hq.
  repeat split; by (eapply unique_elem, selectbox_elem).
Qed.

Lemma selections_occur_in_the_frame_witness :
  ∃ p c q,
    Predict.selected_product predict_clicked_15_at_5 scenario3 = Some p
    ∧ p ∈ PRODUCTLINE <$> scenario3
    ∧ Predict.selected_country predict_clicked_15_at_5 scenario3 = Some c
    ∧ c ∈ COUNTRY <$> scenario3
    ∧ Predict.selected_quarter predict_clicked_15_at_5 scenario3 = Some q
    ∧ q ∈ QTR_ID <$> scenario3.
Proof.
  apply (selections_occur_in_the_frame predict_clicked_15_at_5 scenario3).
  discriminate.
Defined.

(** As long as the three select boxes are left alone they stand on the
    values of the first row, so the first row of the frame is the first
    row the page works on. *)
Theorem default_selection_is_the_first_row ui df :
  Predict.product_entered ui = None →
  Predict.country_entered ui = None →
  Predict.quarter_entered ui = None →
  head (Predict.filtered_df ui df) = head df.
Proof.
  intros Hp Hc Hq. rewrite filtered_df_eq.
  unfold Predict.selected_product, Predict.selected_country,
    Predict.selected_quarter.
  rewrite Hp, Hc, Hq. unfold selectbox. rewrite !head_unique.
  destruct df as [|r df]; [done|]. rewrite !fmap_cons.
  cbn [head List.filter]. unfold matches at 1.
  by rewrite !bool_decide_eq_true_2.
Qed.

Lemma default_selection_is_the_first_row_witness :
  head (Predict.filtered_df no_widget_touched scenario3) = head scenario3.
Proof.
  apply (default_selection_is_the_first_row no_widget_touched scenario3);
    reflexivity.
Defined.
(** *** The adjusted R² and the sum of squared errors *)

Lemma adjusted_r2_denominator (n k : Z) :
  sub (sub (PyInt n) (PyInt k)) (PyInt 1) = PyInt (n - k - 1).
Proof. reflexivity. Qed.

Lemma is_np_numerator r2 n :
  is_np (mul (sub (PyInt 1) r2) (sub (PyInt n) (PyInt 1))) = is_np r2.
Proof. by destruct r2. Qed.

(** The adjusted R² has one way to fail: it raises ZeroDivisionError
    exactly when the sample has one row more than there are features and
    the R² is a built-in number.  In every other case it returns a
    value. *)
Theorem adjusted_r2_raises_iff (r2 : scalar) (n k : Z) :
  (Predict.adjusted_r2 r2 n k = Raise ZeroDivisionError
   ↔ is_np r2 = false ∧ n = k + 1)
  ∧ (Predict.adjusted_r2 r2 n k ≠ Raise ZeroDivisionError
     → ∃ x, Predict.adjusted_r2 r2 n k = Ok x).
Proof.
  unfold Predict.adjusted_r2, truediv.
  rewrite adjusted_r2_denominator, is_np_numerator. cbn [is_np is_zero].
  rewrite orb_false_r.
  destruct (is_np r2); [|destruct (Z.eqb_spec (n - k - 1) 0)]; simpl.
  - split; [|by eexists]. split; [discriminate|by intros [? _]].
  - split; [|done]. split; [|done]. intros _. split; [done|lia].
  - split; [|by eexists]. split; [discriminate|]. intros [_ ?]. lia.
Qed.

Lemma adjusted_r2_value (r2 : scalar) (q : Q) (n k : Z) :
  to_float r2 = Fin q → n - k - 1 ≠ 0 →
  ∃ x a,
    Predict.adjusted_r2 r2 n k = Ok x
    ∧ to_float x = Fin a
    ∧ (a == 1 - (1 - q) * inject_Z (n - 1) / inject_Z (n - k - 1))%Q.
Proof.
  intros Hq Hden. unfold Predict.adjusted_r2.
  set (v := ((1 + - q) * inject_Z (n - 1) / inject_Z (n - k - 1))%Q).
  assert (∃ x, truediv (mul (sub (PyInt 1) r2) (sub (PyInt n) (PyInt 1)))
                       (sub (sub (PyInt n) (PyInt k)) (PyInt 1)) = Ok x
               ∧ (x = PyFloat (Fin v) ∨ x = NpFloat (Fin v)))
    as (x & -> & Hx).
  { destruct r2 as [z|x|x]; simpl in Hq; subst; unfold truediv; simpl;
      unfold Qis_zero; simpl; destruct (Z.eqb_spec (n - k - 1) 0); try done.
    - injection Hq as <-. eexists. split; [reflexivity|]. left.
      do 2 f_equal. unfold v, Qdiv, Qmult, Qplus, Qopp, inject_Z. simpl.
      do 2 f_equal. lia.
    - eexists. split; [reflexivity|]. by left.
    - eexists. split; [reflexivity|]. by right. }
  exists (sub (PyInt 1) x), (1 + - v)%Q.
  split; [reflexivity|]. split; [by destruct Hx as [-> | ->]|].
  reflexivity.
Qed.

(** With at least two rows more than features, the adjusted R² of a finite
    R² of at most 1 is a number that never exceeds the R². *)
Theorem adjusted_r2_at_most_r2 (r2 : scalar) (q : Q) (n k : Z) :
  to_float r2 = Fin q → (q <= 1)%Q → 0 ≤ k → k + 2 ≤ n →
  ∃ x a,
    Predict.adjusted_r2 r2 n k = Ok x ∧ to_float x = Fin a ∧ (a <= q)%Q.
Proof.
  intros Hq Hle Hk Hn.
  destruct (adjusted_r2_value r2 q n k Hq) as (x & a & Hx & Ha & Hv); [lia|].
  exists x, a. split; [done|]. split; [done|]. rewrite Hv.
  assert (1 <= inject_Z (n - 1) / inject_Z (n - k - 1))%Q as Hratio.
  { apply Qle_shift_div_l.
    - change 0%Q with (inject_Z 0). rewrite <- Zlt_Qlt. lia.
    - rewrite Qmult_1_l, <- Zle_Qle. lia. }
  assert (0 <= 1 - q)%Q as Hgap.
  { rewrite <- (Qplus_opp_r q). unfold Qminus. by apply Qplus_le_l. }
  assert ((1 - q) * 1 <= (1 - q) * (inject_Z (n - 1) / inject_Z (n - k - 1)))%Q
    as Hmul.
  { rewrite !(Qmult_comm (1 - q)). by apply Qmult_le_compat_r. }
  rewrite Qmult_1_r in Hmul.
  unfold Qdiv in *. rewrite Qmult_assoc in Hmul.
  apply Qle_minus_iff in Hmul. apply Qle_minus_iff.
  eapply Qle_trans; [exact Hmul|]. apply Qle_lteq. right. ring.
Qed.

Lemma adjusted_r2_at_most_r2_witness :
  ∃ x a,
    Predict.adjusted_r2 (PyFloat (Fin (1 # 2))) 10 2 = Ok x
    ∧ to_float x = Fin a ∧ (a <= 1 # 2)%Q.
Proof.
  apply (adjusted_r2_at_most_r2 (PyFloat (Fin (1 # 2))) (1 # 2) 10 2).
  - reflexivity.
  - discriminate.
  - lia.
  - lia.
Defined.

Lemma fold_left_fadd_Fin (qs : list Q) (acc : Q) :
  fold_left fadd (Fin <$> qs) (Fin acc) = Fin (fold_left Qplus qs acc).
Proof.
  revert acc. induction qs as [|q qs IH]; intros acc; [done|].
  rewrite fmap_cons. cbn [fold_left fadd]. apply IH.
Qed.

Lemma sse_finite (y : list Z) (ps : list Q) :
  Predict.sse y (Fin <$> ps)
  = NpFloat (Fin (fold_left Qplus (squared_residuals y ps) 0%Q)).
Proof.
  unfold Predict.sse, squared_residuals. f_equal.
  rewrite <- fold_left_fadd_Fin. f_equal.
  revert ps. induction y as [|t y IH]; intros [|p ps]; try done.
  rewrite !fmap_cons. cbn [zip_with]. rewrite fmap_cons, IH. reflexivity.
Qed.

Lemma Qsquare_nonneg (d : Q) : (0 <= d * d)%Q.
Proof. destruct d as [n m]. unfold Qle. simpl. nia. Qed.

Lemma Qsquare_zero (d : Q) : (d * d == 0)%Q ↔ (d == 0)%Q.
Proof. destruct d as [n m]. unfold Qeq. simpl. nia. Qed.

Lemma fold_left_Qplus_acc (qs : list Q) (acc : Q) :
  (fold_left Qplus qs acc == acc + fold_left Qplus qs 0)%Q.
Proof.
  revert acc. induction qs as [|q qs IH]; intros acc; cbn [fold_left].
  - ring.
  - rewrite (IH (acc + q)%Q), (IH (0 + q)%Q). ring.
Qed.

Lemma squares_sum (y : list Z) (ps : list Q) :
  length y = length ps →
  (0 <= fold_left Qplus (squared_residuals y ps) 0)%Q
  ∧ ((fold_left Qplus (squared_residuals y ps) 0 == 0)%Q
     ↔ Forall2 (λ t p, (p == t # 100)%Q) y ps).
Proof.
  revert ps. induction y as [|t y IH]; intros [|p ps] Hlen; try discriminate Hlen.
  { simpl. split; [apply Qle_refl|].
    split; [intros _; constructor|intros _; reflexivity]. }
  injection Hlen as Hlen. destruct (IH ps Hlen) as [Hpos Hiff].
  unfold squared_residuals in *. cbn [zip_with fold_left].
  rewrite fold_left_Qplus_acc.
  set (d := ((t # 100) + - p)%Q).
  set (s := fold_left Qplus _ 0%Q) in *.
  pose proof (Qsquare_nonneg d) as Hd.
  rewrite (Qplus_0_l (d * d)).
  split.
  - change (0 + 0 <= d * d + s)%Q. by apply Qplus_le_compat.
  - split.
    + intros Hz.
      assert (d * d == 0)%Q as Hd0.
      { apply Qle_antisym; [|done].
        rewrite <- Hz. rewrite <- (Qplus_0_r (d * d)) at 1.
        by apply Qplus_le_r. }
      assert (s == 0)%Q as Hs0.
      { rewrite Hd0, Qplus_0_l in Hz. exact Hz. }
      constructor; [|by apply Hiff].
      apply (proj1 (Qsquare_zero d)) in Hd0.
      assert (p == (t # 100) - d)%Q as Hp by (unfold d; ring).
      rewrite Hp, Hd0. ring.
    + intros Hall. apply Forall2_cons in Hall as [Hp Hall].
      apply Hiff in Hall. rewrite Hall.
      assert (d == 0)%Q as Hd0 by (unfold d; rewrite Hp; ring).
      rewrite Hd0. ring.
Qed.

(** The sum of squared errors of finite predictions, one per target, is a
    number that is never negative, and it is zero exactly when every
    prediction equals its target. *)
Theorem sse_nonnegative (y : list Z) (ps : list Q) :
  length y = length ps →
  ∃ s,
    Predict.sse y (Fin <$> ps) = NpFloat (Fin s)
    ∧ (0 <= s)%Q
    ∧ ((s == 0)%Q ↔ Forall2 (λ t p, (p == t # 100)%Q) y ps).
Proof.
  intros Hlen. eexists. split; [apply sse_finite|]. by apply squares_sum.
Qed.

Lemma sse_nonnegative_witness :
  ∃ s,
    Predict.sse [5000; 10000] (Fin <$> [75%Q; 75%Q]) = NpFloat (Fin s)
    ∧ (0 <= s)%Q
    ∧ ((s == 0)%Q
       ↔ Forall2 (λ t p, (p == t # 100)%Q) [5000; 10000] [75%Q; 75%Q]).
Proof.
  apply (sse_nonnegative [5000; 10000] [75%Q; 75%Q]). reflexivity.
Defined.
(** *** The page around the metrics *)

Lemma adjusted_r2_builtin_raises (r2 : scalar) (k : Z) :
  is_np r2 = false →
  Predict.adjusted_r2 r2 (k + 1) k = Raise ZeroDivisionError.
Proof.
  intros Hnp. unfold Predict.adjusted_r2, truediv.
  rewrite adjusted_r2_denominator, is_np_numerator, Hnp. cbn [is_np is_zero orb].
  by replace (k + 1 - k - 1) with 0 by lia.
Qed.

Lemma adjusted_r2_Ok (r2 : scalar) (n k : Z) :
  is_np r2 = true ∨ n ≠ k + 1 → ∃ x, Predict.adjusted_r2 r2 n k = Ok x.
Proof.
  intros Hor. unfold Predict.adjusted_r2, truediv.
  rewrite adjusted_r2_denominator, is_np_numerator. cbn [is_np is_zero].
  rewrite orb_false_r.
  destruct (is_np r2); [by eexists|].
  destruct Hor as [|Hne]; [done|].
  destruct (Z.eqb_spec (n - k - 1) 0); [lia|by eexists].
Qed.

Lemma adjusted_r2_numpy_three (q : Q) :
  Predict.adjusted_r2 (NpFloat (Fin q)) 3 2
  = Ok (NpFloat (if Qis_zero ((1 + - q) * inject_Z 2) then NaN
                 else if Qis_neg ((1 + - q) * inject_Z 2) then PosInf
                 else NegInf)).
Proof.
  unfold Predict.adjusted_r2, truediv. simpl.
  change (inject_Z 1) with 1%Q. change (3 - 1) with 2.
  by destruct (Qis_zero ((1 + - q) * inject_Z 2)),
              (Qis_neg ((1 + - q) * inject_Z 2)).
Qed.

Section predict_page_more.
Context `{Predict.Sklearn}.

(** With exactly three filtered rows and an [r2_score] that answers with a
    built-in float, the page fits the model and then stops with
    ZeroDivisionError in the adjusted R²: no metric, no plot and no
    prediction form is rendered. *)
Theorem page_three_rows_raises ui df :
  len (Predict.filtered_df ui df) = 3 →
  (∀ y y_pred, is_np (Predict.r2_score y y_pred) = false) →
  Predict.page ui df
  = Run [Header "Filter Data";
         ModelFit ((λ r, (QUANTITYORDERED r, PRICEEACH r))
                     <$> Predict.filtered_df ui df)
                  (SALES <$> Predict.filtered_df ui df)]
        (Raise ZeroDivisionError).
Proof.
  intros Hlen Hnp. unfold Predict.page. cbv zeta.
  destruct (Z.ltb_spec 1 (len (Predict.filtered_df ui df))); [|lia].
  replace (len (SALES <$> Predict.filtered_df ui df)) with (2 + 1)
    by (unfold len in *; rewrite length_fmap; lia).
  change (len Predict.features) with 2.
  rewrite adjusted_r2_builtin_raises by apply Hnp. reflexivity.
Qed.

Lemma three_rows_text (q : Q) :
  ((q < 1)%Q →
   format_scalar 4
     (NpFloat (if Qis_zero ((1 + - q) * inject_Z 2) then NaN
               else if Qis_neg ((1 + - q) * inject_Z 2) then PosInf
               else NegInf)) = "-inf")
  ∧ ((q == 1)%Q →
     format_scalar 4
       (NpFloat (if Qis_zero ((1 + - q) * inject_Z 2) then NaN
                 else if Qis_neg ((1 + - q) * inject_Z 2) then PosInf
                 else NegInf)) = "nan").
Proof.
  destruct q as [n d]. unfold Qlt, Qeq, Qis_zero, Qis_neg. simpl.
  split; intros Hq.
  - destruct (Z.eqb_spec ((1 * Z.pos d + - n * 1) * 2) 0); [lia|].
    by destruct (Z.ltb_spec ((1 * Z.pos d + - n * 1) * 2) 0); [lia|].
  - by destruct (Z.eqb_spec ((1 * Z.pos d + - n * 1) * 2) 0); [|lia].
Qed.

(** With a numpy [r2_score] the same three rows raise nothing: the metric
    of the adjusted R² is rendered and reads "-inf" for an R² below 1 and
    "nan" for an R² of 1. *)
Theorem page_three_rows_numpy ui df (q : Q) :
  len (Predict.filtered_df ui df) = 3 →
  (∀ y y_pred, Predict.r2_score y y_pred = NpFloat (Fin q)) →
  ((q < 1)%Q →
   Metric "Adjusted R-squared" (PStr "-inf") ∈ events (Predict.page ui df))
  ∧ ((q == 1)%Q →
     Metric "Adjusted R-squared" (PStr "nan") ∈ events (Predict.page ui df)).
Proof.
  intros Hlen Hr2. unfold Predict.page. cbv zeta.
  destruct (Z.ltb_spec 1 (len (Predict.filtered_df ui df))); [|lia].
  replace (len (SALES <$> Predict.filtered_df ui df)) with 3
    by (unfold len in *; rewrite length_fmap; lia).
  change (len Predict.features) with 2.
  rewrite Hr2, adjusted_r2_numpy_three.
  destruct (three_rows_text q) as [Hlt Heq].
  split; intros Hq; [rewrite <- (Hlt Hq)|rewrite <- (Heq Hq)];
    cbn [mbind run_bind events outcome emit lift app];
    do 4 apply list_elem_of_further; apply list_elem_of_here.
Qed.

(** A run of the page ends without an exception whenever the filtered
    frame does not have exactly three rows and the model answers every
    request for a prediction. *)
Theorem page_finishes ui df :
  len (Predict.filtered_df ui df) ≠ 3 →
  (∀ model x, Predict.predict model [x] ≠ []) →
  outcome (Predict.page ui df) = Ok ().
Proof.
  intros Hlen Hpred. unfold Predict.page. cbv zeta.
  destruct (Z.ltb_spec 1 (len (Predict.filtered_df ui df))); [|done].
  destruct (adjusted_r2_Ok
              (Predict.r2_score (SALES <$> Predict.filtered_df ui df)
                 (Predict.predict
                    (Predict.fit
                       ((λ r, (QUANTITYORDERED r, PRICEEACH r))
                          <$> Predict.filtered_df ui df)
                       (SALES <$> Predict.filtered_df ui df))
                    ((λ r, (QUANTITYORDERED r, PRICEEACH r))
                       <$> Predict.filtered_df ui df)))
              (len (SALES <$> Predict.filtered_df ui df))
              (len Predict.features)) as [x ->].
  { right. unfold len in *. rewrite length_fmap. simpl. lia. }
  destruct (Predict.predict_clicked ui); [|reflexivity].
  match goal with
  | |- context [Predict.predict ?m [?x]] =>
      pose proof (Hpred m x); destruct (Predict.predict m [x])
  end; [done|reflexivity].
Qed.
End predict_page_more.

Lemma page_three_rows_raises_witness :
  @Predict.page mean_forest no_widget_touched three_rows
  = Run [Header "Filter Data";
         ModelFit ((λ r, (QUANTITYORDERED r, PRICEEACH r))
                     <$> Predict.filtered_df no_widget_touched three_rows)
                  (SALES <$> Predict.filtered_df no_widget_touched three_rows)]
        (Raise ZeroDivisionError).
Proof.
  apply (@page_three_rows_raises mean_forest no_widget_touched three_rows).
  - reflexivity.
  - intros y y_pred. reflexivity.
Defined.

Lemma page_three_rows_numpy_witness :
  ((1 # 2 < 1)%Q →
   Metric "Adjusted R-squared" (PStr "-inf")
   ∈ events (@Predict.page numpy_forest no_widget_touched three_rows))
  ∧ ((1 # 2 == 1)%Q →
     Metric "Adjusted R-squared" (PStr "nan")
     ∈ events (@Predict.page numpy_forest no_widget_touched three_rows)).
Proof.
  apply (@page_three_rows_numpy numpy_forest no_widget_touched three_rows (1 # 2)).
  - reflexivity.
  - intros y y_pred. reflexivity.
Defined.

Lemma page_finishes_witness :
  outcome (@Predict.page mean_forest predict_clicked_15_at_5 two_rows) = Ok ().
Proof.
  apply (@page_finishes mean_forest predict_clicked_15_at_5 two_rows).
  - discriminate.
  - intros model x. discriminate.
Defined.
